(** * semi-utils: the image processors of [entity/image_processor.py]

    A shallow embedding of the layout arithmetic of the processor stages
    (watermark band, margins, ratio padding, blurred backgrounds) and the
    properties of their geometry.

    Conventions.
    - Python [int] values are [Z]; Python [float] values are rationals [Q]:
      exact where a size meets a constant, rounded as binary64 ([Float])
      where two sizes are divided and the quotient multiplied by a size;
      [int(x)] truncates toward zero.
    - A Pillow image is a symbolic term recording the raster primitives that
      built it; [width] and [height] give the size each primitive produces.
    - A Python exception is a value [Raise e] of the [result] type. *)

From Stdlib Require Import ZArith QArith Qround Qpower Lqa Lia Bool String Ascii List.
Import ListNotations.

Local Set Warnings "-register-all".
Open Scope string_scope.
Open Scope Z_scope.

(** ** Python layer *)

Inductive exn : Type :=
| ZeroDivisionError
| AttributeError
| ValueError.

Inductive result (A : Type) : Type :=
| Ok (a : A)
| Raise (e : exn).

Arguments Ok {A} a.
Arguments Raise {A} e.

Definition bind {A B : Type} (m : result A) (k : A -> result B) : result B :=
  match m with
  | Ok a => k a
  | Raise e => Raise e
  end.

Notation "x <- m ;; k" := (bind m (fun x => k))
  (at level 61, m at next level, right associativity).

Module Py.

(** [int(x)] on a float: truncation toward zero. *)
Definition int (x : Q) : Z := Z.quot (Qnum x) (Z.pos (Qden x)).

(** [a / b]: true division, raising on a zero divisor. *)
Definition truediv (a b : Q) : result Q :=
  if Qeq_bool b 0 then Raise ZeroDivisionError else Ok (a / b)%Q.

(** [a > b] and [a >= b] on floats. *)
Definition gt (a b : Q) : bool := negb (Qle_bool a b).
Definition ge (a b : Q) : bool := Qle_bool b a.

(** [min(a, b)]: the first argument unless the second is strictly smaller. *)
Definition min (a b : Q) : Q :=
  if gt a b then b else a.

(** [round(x, 2)], as the number of hundredths; ties go to the even one. *)
Definition round2 (x : Q) : Z :=
  let y := (x * 100)%Q in
  let f := Qfloor y in
  let r := (y - inject_Z f)%Q in
  match (r ?= 1 # 2)%Q with
  | Lt => f
  | Gt => f + 1
  | Eq => if Z.even f then f else f + 1
  end.

(** [c in s] for a one-character [c]. *)
Fixpoint contains (c : ascii) (s : string) : bool :=
  match s with
  | EmptyString => false
  | String a s' => Ascii.eqb a c || contains c s'
  end.

(** A value that is either a [str] or a [bool], compared with [==]. *)
Inductive value : Type :=
| Str (s : string)
| Bool (b : bool).

Definition eq (a b : value) : bool :=
  match a, b with
  | Str s, Str t => String.eqb s t
  | Bool x, Bool y => Bool.eqb x y
  | _, _ => false
  end.

End Py.

(** ** Images *)

(** Modelled from the spec: [enums.constant] is absent; [GRAY] is the solid
    colour of the divider line and [TRANSPARENT] the fully transparent fill. *)
Inductive Color : Type :=
| GRAY
| TRANSPARENT
| ColorStr (s : string)
| ColorRGB (r g b : Z)
| ColorNone.

Inductive Image : Type :=
| Raster (w h : Z)
| Image_new (mode : string) (w h : Z) (color : Color)
| Image_convert (im : Image) (mode : string)
| Image_filter_GaussianBlur (im : Image) (radius : Z)
| Image_blend (im1 im2 : Image) (alpha : Q)
| Image_resize (im : Image) (w h : Z)
| Image_paste (dst src : Image) (x y : Z)
| Image_paste_mask (dst src : Image) (x y : Z) (mask : Image)
| ImageOps_expand (im : Image) (left top right bottom : Z) (fill : Color)
| Image_alpha_composite (im1 im2 : Image)
| ImageOps_exif_transpose (im : Image)
| append_image_by_side (background : Image) (images : list (option Image))
    (side : string) (is_start : bool).

(** [Raster w h] is a bitmap produced outside the processors (a decoded photo,
    a logo, a line of rendered text).  [Image_paste dst src x y] is [dst] after
    [dst.paste(src, (x, y))], [Image_paste_mask] the same with a mask.  The
    resampling filter of [resize] is left out.  [ImageOps_exif_transpose] is
    applied to freshly composed images only, which carry no orientation tag,
    so it keeps the size.  [utils.append_image_by_side] is absent: it draws
    the given images on its first argument in place, so the canvas keeps its
    size; the term records the call. *)

Fixpoint width (im : Image) : Z :=
  match im with
  | Raster w _ => w
  | Image_new _ w _ _ => w
  | Image_convert im _ => width im
  | Image_filter_GaussianBlur im _ => width im
  | Image_blend im1 _ _ => width im1
  | Image_resize _ w _ => w
  | Image_paste dst _ _ _ => width dst
  | Image_paste_mask dst _ _ _ _ => width dst
  | ImageOps_expand im l _ r _ _ => l + width im + r
  | Image_alpha_composite im1 _ => width im1
  | ImageOps_exif_transpose im => width im
  | append_image_by_side bg _ _ _ => width bg
  end.

Fixpoint height (im : Image) : Z :=
  match im with
  | Raster _ h => h
  | Image_new _ _ h _ => h
  | Image_convert im _ => height im
  | Image_filter_GaussianBlur im _ => height im
  | Image_blend im1 _ _ => height im1
  | Image_resize _ _ h => h
  | Image_paste dst _ _ _ => height dst
  | Image_paste_mask dst _ _ _ _ => height dst
  | ImageOps_expand im _ t _ b _ => t + height im + b
  | Image_alpha_composite im1 _ => height im1
  | ImageOps_exif_transpose im => height im
  | append_image_by_side bg _ _ _ => height bg
  end.

Definition size (im : Image) : Z * Z := (width im, height im).

(** [ImageOps.expand(im, border, fill)] with a 4-tuple border. *)
Definition expand4 (im : Image) (border : Z * Z * Z * Z) (fill : Color) : Image :=
  let '(l, t, r, b) := border in ImageOps_expand im l t r b fill.

(** [ImageOps.expand(im, border, fill)] with a 2-tuple border [(x, y)]:
    Pillow takes [x] for left and right and [y] for top and bottom. *)
Definition expand2 (im : Image) (border : Z * Z) (fill : Color) : Image :=
  let '(x, y) := border in ImageOps_expand im x y x y fill.

(** [Image.alpha_composite(im1, im2)] refuses images of different sizes. *)
Definition alpha_composite (im1 im2 : Image) : result Image :=
  if (width im1 =? width im2) && (height im1 =? height im2)
  then Ok (Image_alpha_composite im1 im2)
  else Raise ValueError.

(** The image under the paddings of a line. *)
Fixpoint unpadded (im : Image) : Image :=
  match im with
  | ImageOps_expand im' _ _ _ _ _ => unpadded im'
  | _ => im
  end.

(** A divider line is solid when its core is filled with [GRAY]. *)
Definition solid (line : Image) : bool :=
  match unpadded line with
  | Image_new _ _ _ GRAY => true
  | _ => false
  end.

(** The box [(x0, y0, x1, y1)] that the source occupies inside an expanded
    image: columns [x0 <= x < x1], rows [y0 <= y < y1]. *)
Definition inner_box (im : Image) : Z * Z * Z * Z :=
  match im with
  | ImageOps_expand src l t _ _ _ => (l, t, l + width src, t + height src)
  | _ => (0, 0, width im, height im)
  end.

(** ** The helpers of [utils] *)

(** Modelled from the spec: [utils.padding_image] is absent.  It is the border
    expansion that pads the sides named in [padding_location] ([t], [b], [l],
    [r]) by [padding_size] pixels each, filled with [color]. *)
Definition padding_image (image : Image) (padding_size : Z)
    (padding_location : string) (color : Color) : Image :=
  let side c := if Py.contains c padding_location then padding_size else 0 in
  ImageOps_expand image (side "l"%char) (side "t"%char) (side "r"%char)
    (side "b"%char) color.

(** Modelled from the spec: the call of [padding_image] without a location
    (logo and divider line) pads vertically, top and bottom, with no colour. *)
Definition padding_image_default (image : Image) (padding_size : Z) : Image :=
  padding_image image padding_size "tb" ColorNone.

(** The images pasted on the canvas one below the other, from row [y] on. *)
Fixpoint stack_on (canvas : Image) (y : Z) (images : list Image) : Image :=
  match images with
  | [] => canvas
  | im :: rest => stack_on (Image_paste canvas im 0 y) (y + height im) rest
  end.

(** Modelled from the spec: [utils.concatenate_image] is absent.  It stacks
    the images top to bottom on a transparent canvas as wide as the widest
    of them and as tall as their heights together. *)
Definition concatenate_image (images : list Image) : Image :=
  let max_width := fold_right (fun im acc => Z.max (width im) acc) 0 images in
  let sum_height := fold_right (fun im acc => height im + acc) 0 images in
  stack_on (Image_new "RGBA" max_width sum_height TRANSPARENT) 0 images.

(** Modelled from the spec: [utils.resize_image_with_width] is absent.  It
    scales the image uniformly to the given width: the new width is exactly
    the target and the height follows the aspect ratio (the quotient by a
    zero width is 0, as in [Q]). *)
Definition resize_image_with_width (image : Image) (w : Z) : Image :=
  Image_resize image w
    (Py.int (inject_Z (height image) / inject_Z (width image) * inject_Z w)%Q).

(** ** Config and ImageContainer *)

Definition Font : Type := string.

(** Modelled from the spec: [entity.config] is absent.  One text quadrant:
    the selector of its content, its colour and its weight. *)
Record ElementConfig : Type := {
  element_name : string;
  get_color : Color;
  is_bold : bool
}.

Module Config.

(** Modelled from the spec: [entity.config] is absent.  The settings read by
    the stages; [bg_color] is the attribute the watermark stage assigns. *)
Record t : Type := {
  bg_color : Color;
  get_background_color : Color;
  get_left_top : ElementConfig;
  get_left_bottom : ElementConfig;
  get_right_top : ElementConfig;
  get_right_bottom : ElementConfig;
  has_logo_enabled : bool;
  is_logo_left : bool;
  get_font : Font;
  get_bold_font : Font;
  get_white_margin_width : Z;
  get_font_padding_level : Z;
  load_logo : string -> option Image
}.

(** [config.bg_color = c] *)
Definition set_bg_color (config : t) (c : Color) : t :=
  {| bg_color := c;
     get_background_color := get_background_color config;
     get_left_top := get_left_top config;
     get_left_bottom := get_left_bottom config;
     get_right_top := get_right_top config;
     get_right_bottom := get_right_bottom config;
     has_logo_enabled := has_logo_enabled config;
     is_logo_left := is_logo_left config;
     get_font := get_font config;
     get_bold_font := get_bold_font config;
     get_white_margin_width := get_white_margin_width config;
     get_font_padding_level := get_font_padding_level config;
     load_logo := load_logo config |}.

End Config.

(** Modelled from the spec: [entity.image_container] is absent.  The holder of
    the working image, the original image and the photo metadata. *)
Record ImageContainer : Type := {
  img : Image;
  watermark_img : Image;
  original_ratio : Q;
  make : string;
  model : string;
  param_str : string;
  get_attribute_str : ElementConfig -> string
}.

Definition get_watermark_img (c : ImageContainer) : Image := watermark_img c.
Definition get_width (c : ImageContainer) : Z := width (get_watermark_img c).
Definition get_height (c : ImageContainer) : Z := height (get_watermark_img c).
Definition get_original_ratio (c : ImageContainer) : Q := original_ratio c.
Definition get_model (c : ImageContainer) : string := model c.
Definition get_param_str (c : ImageContainer) : string := param_str c.

(** Modelled from the spec: the aspect ratio is width / height of the current
    working image. *)
Definition get_ratio (c : ImageContainer) : result Q :=
  Py.truediv (inject_Z (get_width c)) (inject_Z (get_height c)).

Definition update_watermark_img (c : ImageContainer) (im : Image) : ImageContainer :=
  {| img := img c;
     watermark_img := im;
     original_ratio := original_ratio c;
     make := make c;
     model := model c;
     param_str := param_str c;
     get_attribute_str := get_attribute_str c |}.

(** ** Module constants *)

Definition NORMAL_HEIGHT : Z := 1000.
Definition LINE_GRAY : Image := Image_new "RGBA" 20 1000 GRAY.
Definition LINE_TRANSPARENT : Image := Image_new "RGBA" 20 1000 TRANSPARENT.
Definition PADDING_PERCENT_IN_BACKGROUND : Q := 18 # 100.
Definition GAUSSIAN_KERNEL_RADIUS : Z := 75.

(** ** WatermarkProcessor and its subclasses *)

Module WatermarkProcessor.

Record t : Type := {
  config : Config.t;
  logo_position : Py.value;
  logo_enable : bool;
  bg_color : Color;
  line_color : Color;
  font_color_lt : Color;
  bold_font_lt : bool;
  font_color_lb : Color;
  bold_font_lb : bool;
  font_color_rt : Color;
  bold_font_rt : bool;
  font_color_rb : Color;
  bold_font_rb : bool
}.

Definition init (config : Config.t) : t :=
  {| config := config;
     logo_position := Py.Str "left";
     logo_enable := true;
     bg_color := ColorStr "#ffffff";
     line_color := GRAY;
     font_color_lt := ColorStr "#212121";
     bold_font_lt := true;
     font_color_lb := ColorStr "#424242";
     bold_font_lb := false;
     font_color_rt := ColorStr "#212121";
     bold_font_rt := true;
     font_color_rb := ColorStr "#424242";
     bold_font_rb := false |}.

Definition set_logo_position (self : t) (v : Py.value) : t :=
  {| config := config self;
     logo_position := v;
     logo_enable := logo_enable self;
     bg_color := bg_color self;
     line_color := line_color self;
     font_color_lt := font_color_lt self;
     bold_font_lt := bold_font_lt self;
     font_color_lb := font_color_lb self;
     bold_font_lb := bold_font_lb self;
     font_color_rt := font_color_rt self;
     bold_font_rt := bold_font_rt self;
     font_color_rb := font_color_rb self;
     bold_font_rb := bold_font_rb self |}.

(** The dark palette assigned by the two [Dark...] subclasses. *)
Definition set_dark_palette (self : t) : t :=
  {| config := config self;
     logo_position := logo_position self;
     logo_enable := logo_enable self;
     bg_color := ColorStr "#212121";
     line_color := GRAY;
     font_color_lt := ColorStr "#D32F2F";
     bold_font_lt := true;
     font_color_lb := ColorStr "#d4d1cc";
     bold_font_lb := false;
     font_color_rt := ColorStr "#D32F2F";
     bold_font_rt := true;
     font_color_rb := ColorStr "#d4d1cc";
     bold_font_rb := false |}.

Definition is_logo_left (self : t) : bool :=
  Py.eq (logo_position self) (Py.Str "left").

(** The three assembly branches of [process]. *)
Inductive branch : Type :=
| LogoLeft
| LogoRight
| NoLogo.

Definition assembly_branch (self : t) : branch :=
  if logo_enable self then
    if is_logo_left self then LogoLeft else LogoRight
  else NoLogo.

(** Lines 171-175: the two text columns brought to one height. *)
Definition normalize_columns (left right : Image) (padding_ratio : Q) : Image * Image :=
  let max_height := Z.max (height left) (height right) in
  let left :=
    padding_image left (Py.int (inject_Z max_height * padding_ratio)) "tb" ColorNone in
  let right :=
    padding_image right (Py.int (inject_Z max_height * padding_ratio)) "t" ColorNone in
  let right := padding_image right (height left - height right) "b" ColorNone in
  (left, right).

(** Lines 177-199: logo, divider line and columns drawn on the band.  The
    result is the band and the [line] bound on the way, if any.  On the
    left branch [logo.height] is read before [padding_image] can see that
    the logo is [None]. *)
Definition assemble (self : t) (watermark left right : Image) (logo : option Image)
    (padding_ratio : Q) : result (Image * option Image) :=
  match assembly_branch self with
  | LogoLeft =>
      let line := LINE_TRANSPARENT in
      match logo with
      | None => Raise AttributeError
      | Some l =>
          let logo :=
            Some (padding_image_default l (Py.int (padding_ratio * inject_Z (height l)))) in
          let watermark :=
            append_image_by_side watermark [Some line; logo; Some left] "left" false in
          let watermark := append_image_by_side watermark [Some right] "right" false in
          Ok (watermark, Some line)
      end
  | LogoRight =>
      let '(logo, line) :=
        match logo with
        | Some l =>
            (Some (padding_image_default l (Py.int (padding_ratio * inject_Z (height l)))),
             padding_image_default LINE_GRAY
               (Py.int (padding_ratio * inject_Z (height LINE_GRAY) * (8 # 10))))
        | None => (None, LINE_TRANSPARENT)
        end in
      let watermark := append_image_by_side watermark [Some left] "left" true in
      let watermark :=
        append_image_by_side watermark [logo; Some line; Some right] "right" false in
      Ok (watermark, Some line)
  | NoLogo =>
      let watermark := append_image_by_side watermark [Some left] "left" true in
      let watermark := append_image_by_side watermark [Some right] "right" false in
      Ok (watermark, None)
  end.

Section WithRasterizer.

(** The text rasterizer of [utils], an external collaborator. *)
Variable text_to_image : string -> Font -> Font -> bool -> Color -> Image.

(** Lines 145-169: the two text columns. *)
Definition columns (self : t) (config : Config.t) (container : ImageContainer)
    : Image * Image :=
  let empty_padding := Image_new "RGBA" 10 100 (bg_color self) in
  let left_top :=
    text_to_image (get_attribute_str container (Config.get_left_top config))
      (Config.get_font config) (Config.get_bold_font config)
      (bold_font_lt self) (font_color_lt self) in
  let left_bottom :=
    text_to_image (get_attribute_str container (Config.get_left_bottom config))
      (Config.get_font config) (Config.get_bold_font config)
      (bold_font_lb self) (font_color_lb self) in
  let left := concatenate_image [left_top; empty_padding; left_bottom] in
  let right_top :=
    text_to_image (get_attribute_str container (Config.get_right_top config))
      (Config.get_font config) (Config.get_bold_font config)
      (bold_font_rt self) (font_color_rt self) in
  let right_bottom :=
    text_to_image (get_attribute_str container (Config.get_right_bottom config))
      (Config.get_font config) (Config.get_bold_font config)
      (bold_font_rb self) (font_color_rb self) in
  let right := concatenate_image [right_top; empty_padding; right_bottom] in
  (left, right).

(** Lines 203-204: the assembled band scaled to the working width. *)
Definition band (self : t) (container : ImageContainer) : result Image :=
  let config := Config.set_bg_color (config self) (bg_color self) in
  r <- get_ratio container ;;
  let ratio :=
    ((if Py.ge r 1 then 4 # 100 else 9 # 100)
     + (2 # 100) * inject_Z (Config.get_font_padding_level config))%Q in
  r' <- get_ratio container ;;
  let padding_ratio :=
    ((if Py.ge r' 1 then 52 # 100 else 7 # 10)
     - (4 # 100) * inject_Z (Config.get_font_padding_level config))%Q in
  w <- Py.truediv (inject_Z NORMAL_HEIGHT) ratio ;;
  let watermark := Image_new "RGBA" (Py.int w) NORMAL_HEIGHT (bg_color self) in
  let rendered := columns self config container in
  let left := fst rendered in
  let right := snd rendered in
  let normalized := normalize_columns left right padding_ratio in
  let left := fst normalized in
  let right := snd normalized in
  let logo := Config.load_logo config (make container) in
  assembled <- assemble self watermark left right logo padding_ratio ;;
  Ok (resize_image_with_width (fst assembled) (get_width container)).

(** The whole stage: the band of lines 134-204 composited under the
    photo (lines 205-214).  The shared config comes back with its
    [bg_color] assigned. *)
Definition process (self : t) (container : ImageContainer)
    : result (Config.t * ImageContainer) :=
  let config := Config.set_bg_color (config self) (bg_color self) in
  watermark <- band self container ;;
  let bg :=
    expand4 (Image_convert (get_watermark_img container) "RGBA")
      (0, 0, 0, height watermark) (bg_color self) in
  let fg := expand4 watermark (0, get_height container, 0, 0) TRANSPARENT in
  result <- alpha_composite bg fg ;;
  let result := Image_convert (ImageOps_exif_transpose result) "RGB" in
  Ok (config, update_watermark_img container result).

End WithRasterizer.

End WatermarkProcessor.

Module WatermarkRightLogoProcessor.
Definition init (config : Config.t) : WatermarkProcessor.t :=
  WatermarkProcessor.set_logo_position (WatermarkProcessor.init config) (Py.Str "right").
End WatermarkRightLogoProcessor.

Module WatermarkLeftLogoProcessor.
Definition init (config : Config.t) : WatermarkProcessor.t :=
  WatermarkProcessor.set_logo_position (WatermarkProcessor.init config) (Py.Str "left").
End WatermarkLeftLogoProcessor.

Module DarkWatermarkRightLogoProcessor.
Definition init (config : Config.t) : WatermarkProcessor.t :=
  WatermarkProcessor.set_dark_palette (WatermarkRightLogoProcessor.init config).
End DarkWatermarkRightLogoProcessor.

Module DarkWatermarkLeftLogoProcessor.
Definition init (config : Config.t) : WatermarkProcessor.t :=
  WatermarkProcessor.set_dark_palette (WatermarkLeftLogoProcessor.init config).
End DarkWatermarkLeftLogoProcessor.

Module CustomWatermarkProcessor.
Definition init (config : Config.t) : WatermarkProcessor.t :=
  {| WatermarkProcessor.config := config;
     WatermarkProcessor.logo_position := Py.Bool (Config.is_logo_left config);
     WatermarkProcessor.logo_enable := Config.has_logo_enabled config;
     WatermarkProcessor.bg_color := Config.get_background_color config;
     WatermarkProcessor.line_color := GRAY;
     WatermarkProcessor.font_color_lt := get_color (Config.get_left_top config);
     WatermarkProcessor.bold_font_lt := is_bold (Config.get_left_top config);
     WatermarkProcessor.font_color_lb := get_color (Config.get_left_bottom config);
     WatermarkProcessor.bold_font_lb := is_bold (Config.get_left_bottom config);
     WatermarkProcessor.font_color_rt := get_color (Config.get_right_top config);
     WatermarkProcessor.bold_font_rt := is_bold (Config.get_right_top config);
     WatermarkProcessor.font_color_rb := get_color (Config.get_right_bottom config);
     WatermarkProcessor.bold_font_rb := is_bold (Config.get_right_bottom config) |}.
End CustomWatermarkProcessor.

(** ** MarginProcessor and PureWhiteMarginProcessor *)

Module MarginProcessor.

Definition process (config : Config.t) (container : ImageContainer) : ImageContainer :=
  let padding_size :=
    Py.int (inject_Z (Config.get_white_margin_width config)
            * inject_Z (Z.min (get_width container) (get_height container)) / 100)%Q in
  let padding_img :=
    padding_image (get_watermark_img container) padding_size "tlr"
      (Config.bg_color config) in
  update_watermark_img container padding_img.

End MarginProcessor.

Module PureWhiteMarginProcessor.

Definition process (config : Config.t) (container : ImageContainer) : ImageContainer :=
  let padding_size :=
    Py.int (inject_Z (Config.get_white_margin_width config)
            * inject_Z (Z.min (get_width container) (get_height container)) / 100)%Q in
  let padding_img :=
    padding_image (get_watermark_img container) padding_size "tlrb"
      (Config.bg_color config) in
  update_watermark_img container padding_img.

End PureWhiteMarginProcessor.

(** ** PaddingToOriginalRatioProcessor *)

Module PaddingToOriginalRatioProcessor.

(** The branch taken when [original_ratio > ratio]. *)
Definition pad_height (container : ImageContainer) (original_ratio : Q)
    : result Image :=
  q <- Py.truediv (inject_Z (get_width container)) original_ratio ;;
  let padding_size := Py.int (q - inject_Z (get_height container)) in
  Ok (expand2 (get_watermark_img container) (0, padding_size) (ColorStr "white")).

(** The [else] branch. *)
Definition pad_width (container : ImageContainer) (original_ratio : Q) : Image :=
  let padding_size :=
    Py.int (inject_Z (get_height container) * original_ratio
            - inject_Z (get_width container)) in
  expand2 (get_watermark_img container) (padding_size, 0) (ColorStr "white").

Definition process (container : ImageContainer) : result ImageContainer :=
  let original_ratio := get_original_ratio container in
  ratio <- get_ratio container ;;
  padding_img <-
    (if Py.gt original_ratio ratio
     then pad_height container original_ratio
     else Ok (pad_width container original_ratio)) ;;
  Ok (update_watermark_img container padding_img).

End PaddingToOriginalRatioProcessor.

(** ** BackgroundBlurProcessor *)

Module BackgroundBlurProcessor.

Definition process (container : ImageContainer) : ImageContainer :=
  let background := get_watermark_img container in
  let background := Image_filter_GaussianBlur background GAUSSIAN_KERNEL_RADIUS in
  let fg :=
    Image_new "RGB" (width background) (height background) (ColorRGB 255 255 255) in
  let background := Image_blend background fg (1 # 10) in
  let background :=
    Image_resize background
      (Py.int (inject_Z (get_width container) * (1 + PADDING_PERCENT_IN_BACKGROUND)))
      (Py.int (inject_Z (get_height container) * (1 + PADDING_PERCENT_IN_BACKGROUND))) in
  let background :=
    Image_paste background (get_watermark_img container)
      (Py.int (inject_Z (get_width container) * PADDING_PERCENT_IN_BACKGROUND / 2))
      (Py.int (inject_Z (get_height container) * PADDING_PERCENT_IN_BACKGROUND / 2)) in
  update_watermark_img container background.

End BackgroundBlurProcessor.

(** ** Floats that are not exact *)

(** The quotient of two sizes and its product with a size are not exact in a
    [float].  [Float.round] is the rounding of binary64: 53 significant bits,
    to the nearest, ties to the even significand (the exponent range is not
    limited: no overflow, no subnormal numbers).  A size itself, an integer
    below [2 ^ 53], is exact as a float; [int / int] rounds the exact
    quotient once. *)
Module Float.

(** The nearest integer, ties to the even one. *)
Definition rne (y : Q) : Z :=
  let f := Qfloor y in
  match (y - inject_Z f ?= 1 # 2)%Q with
  | Lt => f
  | Gt => f + 1
  | Eq => if Z.even f then f else f + 1
  end.

(** [x * 2 ^ k] *)
Definition scale (x : Q) (k : Z) : Q :=
  if 0 <=? k then (x * inject_Z (2 ^ k))%Q else (x / inject_Z (2 ^ (- k)))%Q.

(** For [x > 0], the [k] with [2 ^ 52 <= x * 2 ^ k < 2 ^ 53]. *)
Definition shift (x : Q) : Z :=
  let k := 53 - (Z.log2 (Qnum x) - Z.log2 (Z.pos (Qden x))) in
  if Qle_bool (inject_Z (2 ^ 53)) (scale x k) then k - 1 else k.

Definition round_pos (x : Q) : Q :=
  let k := shift x in scale (inject_Z (rne (scale x k))) (- k).

Definition round (x : Q) : Q :=
  match Qnum x with
  | 0 => 0%Q
  | Z.pos _ => round_pos x
  | Z.neg _ => (- round_pos (- x))%Q
  end.

(** The unit roundoff [2 ^ -53]. *)
Definition u : Q := 1 # 9007199254740992.

(** [x * y] and [x / y] on floats. *)
Definition mul (x y : Q) : Q := round (x * y).

Definition truediv (x y : Q) : result Q :=
  if Qeq_bool y 0 then Raise ZeroDivisionError else Ok (round (x / y)).

End Float.

(** [im.resize((w, h))]: Pillow refuses a size below 1 x 1. *)
Definition resize (im : Image) (w h : Z) : result Image :=
  if (w <? 1) || (h <? 1) then Raise ValueError else Ok (Image_resize im w h).

(** ** BackgroundBlurWithParamsProcessor *)

Module BackgroundBlurWithParamsProcessor.

(** Lines 419-427 and 458: the sizes computed from the container. *)
Definition params_area_height (container : ImageContainer) : Z :=
  Py.int (inject_Z (get_height container) * (8 # 100)).

Definition final_width (container : ImageContainer) : Z :=
  Py.int (inject_Z (get_width container) * (1 + PADDING_PERCENT_IN_BACKGROUND)).

Definition final_height (container : ImageContainer) : Z :=
  Py.int (inject_Z (get_height container) * (1 + PADDING_PERCENT_IN_BACKGROUND))
  + params_area_height container.

Definition total_padding_height (container : ImageContainer) : Z :=
  Py.int (inject_Z (get_height container) * PADDING_PERCENT_IN_BACKGROUND).

Definition top_padding (container : ImageContainer) : Z :=
  total_padding_height container / 10.

Definition bottom_padding (container : ImageContainer) : Z :=
  total_padding_height container - top_padding container.

Definition max_text_width (container : ImageContainer) : Z :=
  Py.int (inject_Z (get_width container) * (75 # 100)).

(** Line 470. *)
Definition width_scale (max_text_width max_text_image_width : Z) : result Q :=
  if 0 <? max_text_image_width
  then Float.truediv (inject_Z max_text_width) (inject_Z max_text_image_width)
  else Ok 1%Q.

(** Lines 466-473. *)
Definition scale_factor (params_area_height max_text_width total_text_height : Z)
    (model_image param_image : Image) : result Q :=
  height_scale <-
    Float.truediv (inject_Z params_area_height) (inject_Z total_text_height) ;;
  let max_text_image_width := Z.max (width model_image) (width param_image) in
  width_scale <- width_scale max_text_width max_text_image_width ;;
  Ok (Py.min height_scale width_scale).

(** Lines 476-484, for one bitmap. *)
Definition scaled (image : Image) (scale_factor : Q) : result Image :=
  if 0 <? height image
  then resize image
         (Py.int (Float.mul (inject_Z (width image)) scale_factor))
         (Py.int (Float.mul (inject_Z (height image)) scale_factor))
  else Ok image.

(** Lines 464-484. *)
Definition scale_text_images (params_area_height max_text_width total_text_height : Z)
    (model_image param_image : Image) : result (Image * Image) :=
  if 0 <? total_text_height then
    scale_factor <-
      scale_factor params_area_height max_text_width total_text_height
        model_image param_image ;;
    model_image' <- scaled model_image scale_factor ;;
    param_image' <- scaled param_image scale_factor ;;
    Ok (model_image', param_image')
  else Ok (model_image, param_image).

(** Lines 486-499: where the two bitmaps are pasted. *)
Record placement : Type := {
  model_x : Z;
  model_y : Z;
  param_x : Z;
  param_y : Z
}.

Definition text_placement (container : ImageContainer)
    (model_image param_image : Image) : placement :=
  let total_text_height := height model_image + height param_image + 10 in
  let start_y :=
    final_height container - params_area_height container
    + (params_area_height container - total_text_height) / 2
    - top_padding container in
  {| model_x := (final_width container - width model_image) / 2;
     model_y := start_y;
     param_x := (final_width container - width param_image) / 2;
     param_y := start_y - height model_image + 10 |}.

Section WithUtils.

(** The text rasterizer, the rounded-corner mask and the soft shadow of
    [utils], external collaborators. *)
Variable text_to_image : string -> Font -> Font -> bool -> Color -> Image.
Variable add_rounded_corners : Image -> Z -> Image.
Variable add_soft_shadow : Image -> Z -> Z * Z -> Z -> Image.

(** Lines 444-455: the two bitmaps as rendered. *)
Definition rendered_model (config : Config.t) (container : ImageContainer) : Image :=
  text_to_image (get_model container) (Config.get_font config)
    (Config.get_bold_font config) true (ColorStr "#F5F5F5").

Definition rendered_param (config : Config.t) (container : ImageContainer) : Image :=
  text_to_image (get_param_str container) (Config.get_font config)
    (Config.get_bold_font config) false (ColorStr "#F5F5F5").

(** Lines 439-484: the two bitmaps rendered and scaled. *)
Definition text_images (config : Config.t) (container : ImageContainer)
    : result (Image * Image) :=
  let model_image := rendered_model config container in
  let param_image := rendered_param config container in
  let total_text_height := height model_image + height param_image + 10 in
  scale_text_images (params_area_height container) (max_text_width container)
    total_text_height model_image param_image.

Definition process (config : Config.t) (container : ImageContainer)
    : result ImageContainer :=
  enlarged_img <-
    resize (get_watermark_img container)
      (final_width container) (final_height container) ;;
  let background := Image_filter_GaussianBlur enlarged_img GAUSSIAN_KERNEL_RADIUS in
  let fg :=
    Image_new "RGB" (width background) (height background) (ColorRGB 255 255 255) in
  let background := Image_blend background fg (1 # 10) in
  texts <- text_images config container ;;
  let model_image := fst texts in
  let param_image := snd texts in
  let at_ := text_placement container model_image param_image in
  let background :=
    Image_paste_mask background model_image (model_x at_) (model_y at_) model_image in
  let background :=
    Image_paste_mask background param_image (param_x at_) (param_y at_) param_image in
  let original_img := get_watermark_img container in
  let rounded_radius := Py.int (inject_Z (get_width container) * (1 # 100)) in
  let rounded_img := add_rounded_corners original_img rounded_radius in
  let shadow_img := add_soft_shadow rounded_img 15 (5, 5) 128 in
  let original_x :=
    Py.int (inject_Z (get_width container) * PADDING_PERCENT_IN_BACKGROUND / 2)
    - 15 + 5 in
  let original_y :=
    Py.int (inject_Z (get_height container) * PADDING_PERCENT_IN_BACKGROUND / 2)
    - top_padding container - 15 + 5 in
  let background :=
    Image_paste_mask background shadow_img original_x original_y shadow_img in
  Ok (update_watermark_img container background).

End WithUtils.

End BackgroundBlurWithParamsProcessor.

(** ** String methods used by the caption stage *)

Module PyStr.

(** [s.replace(old, new)] for one-character [old] and [new]. *)
Fixpoint replace (old new : ascii) (s : string) : string :=
  match s with
  | EmptyString => EmptyString
  | String a s' => String (if Ascii.eqb a old then new else a) (replace old new s')
  end.

(** [s.split(sep)[0]] for a one-character [sep]: the text before the first
    separator, the whole text when there is none. *)
Fixpoint split_first (sep : ascii) (s : string) : string :=
  match s with
  | EmptyString => EmptyString
  | String a s' => if Ascii.eqb a sep then EmptyString else String a (split_first sep s')
  end.

End PyStr.

(** ** More of the container and the module constants *)

Definition get_img (c : ImageContainer) : Image := img c.
Definition get_make (c : ImageContainer) : string := make c.

Definition SMALL_HORIZONTAL_GAP : Image := Image_new "RGBA" 50 20 TRANSPARENT.
Definition MIDDLE_HORIZONTAL_GAP : Image := Image_new "RGBA" 100 20 TRANSPARENT.
Definition LARGE_HORIZONTAL_GAP : Image := Image_new "RGBA" 200 20 TRANSPARENT.
Definition SMALL_VERTICAL_GAP : Image := Image_new "RGBA" 20 50 TRANSPARENT.
Definition MIDDLE_VERTICAL_GAP : Image := Image_new "RGBA" 20 100 TRANSPARENT.
Definition LARGE_VERTICAL_GAP : Image := Image_new "RGBA" 20 200 TRANSPARENT.

(** ** ShadowProcessor *)

Module ShadowProcessor.

Definition process (container : ImageContainer) : ImageContainer :=
  let image := get_watermark_img container in
  let max_pixel := Z.max (width image) (height image) in
  let radius := Py.int (inject_Z max_pixel / 512) in
  let shadow := Image_new "RGB" (width image) (height image) (ColorStr "#6B696A") in
  let shadow :=
    expand4 shadow (radius * 2, radius * 2, radius * 2, radius * 2)
      (ColorRGB 255 255 255) in
  let shadow := Image_filter_GaussianBlur shadow radius in
  let shadow := Image_paste shadow image radius radius in
  update_watermark_img container shadow.

End ShadowProcessor.

(** ** SquareProcessor *)

Module SquareProcessor.

Section WithUtils.

(** The squaring primitive of [utils], an external collaborator. *)
Variable square_image : Image -> Image.

Definition process (container : ImageContainer) : ImageContainer :=
  let image := get_watermark_img container in
  update_watermark_img container (square_image image).

End WithUtils.

End SquareProcessor.

(** ** SimpleProcessor *)

Module SimpleProcessor.

(** Line 314: the model name as it is rendered. *)
Definition model_text (container : ImageContainer) : string :=
  PyStr.replace "_"%char " "%char (PyStr.replace "/"%char " "%char (get_model container)).

(** Line 319: the make as it is rendered. *)
Definition make_text (container : ImageContainer) : string :=
  PyStr.split_first " "%char (get_make container).

Section WithUtils.

(** The text rasterizer, the image merger and the height resizer of [utils]
    and the two alternative-font accessors of the config, all absent from the
    sources. *)
Variable text_to_image : string -> Font -> Font -> bool -> Color -> Image.
Variable merge_images : list Image -> Z -> Z -> Image.
Variable resize_image_with_height : Image -> Z -> Image.
Variable get_alternative_font : Config.t -> Font.
Variable get_alternative_bold_font : Config.t -> Font.

(** Lines 309-333: the two caption lines merged and resized, given the
    [ratio] and [padding_ratio] of lines 306-307. *)
Definition caption (config : Config.t) (container : ImageContainer)
    (ratio padding_ratio : Q) : Image :=
  let first_text :=
    text_to_image "Shot on" (get_alternative_font config)
      (get_alternative_bold_font config) false (ColorStr "#212121") in
  let model :=
    text_to_image (model_text container) (get_alternative_font config)
      (get_alternative_bold_font config) true (ColorStr "#D32F2F") in
  let make :=
    text_to_image (make_text container) (get_alternative_font config)
      (get_alternative_bold_font config) true (ColorStr "#212121") in
  let first_line :=
    merge_images [first_text; MIDDLE_HORIZONTAL_GAP; model; MIDDLE_HORIZONTAL_GAP; make]
      0 1 in
  let second_line_text := get_param_str container in
  let second_line :=
    text_to_image second_line_text (get_alternative_font config)
      (get_alternative_bold_font config) false (ColorStr "#9E9E9E") in
  let image := merge_images [first_line; MIDDLE_VERTICAL_GAP; second_line] 1 0 in
  let height := (inject_Z (get_height container) * ratio * padding_ratio)%Q in
  resize_image_with_height image (Py.int height).

(** Lines 334-339: the caption padded to the band and laid on white. *)
Definition band_of (container : ImageContainer) (ratio : Q) (image : Image)
    : result Image :=
  let horizontal_padding :=
    Py.int (inject_Z (get_width container - width image) / 2) in
  let vertical_padding :=
    Py.int ((inject_Z (get_height container) * ratio - inject_Z (height image)) / 2) in
  let watermark :=
    expand2 image (horizontal_padding, vertical_padding) TRANSPARENT in
  let bg := Image_new "RGBA" (width watermark) (height watermark) (ColorStr "white") in
  alpha_composite bg watermark.

(** Lines 306-339. *)
Definition caption_band (config : Config.t) (container : ImageContainer)
    : result Image :=
  r <- get_ratio container ;;
  let ratio := (if Py.ge r 1 then 16 # 100 else 1 # 10)%Q in
  r' <- get_ratio container ;;
  let padding_ratio := (if Py.ge r' 1 then 5 # 10 else 5 # 10)%Q in
  band_of container ratio (caption config container ratio padding_ratio).

Definition process (config : Config.t) (container : ImageContainer)
    : result ImageContainer :=
  bg <- caption_band config container ;;
  let watermark_img := merge_images [get_watermark_img container; bg] 1 1 in
  Ok (update_watermark_img container watermark_img).

End WithUtils.

End SimpleProcessor.

(** ** BackgroundBlurWithWhiteBorderProcessor *)

Module BackgroundBlurWithWhiteBorderProcessor.

Definition process (config : Config.t) (container : ImageContainer) : ImageContainer :=
  let padding_size :=
    Py.int (inject_Z (Config.get_white_margin_width config)
            * inject_Z (Z.min (get_width container) (get_height container)) / 256)%Q in
  let padding_img :=
    padding_image (get_watermark_img container) padding_size "tblr" (ColorStr "white") in
  let background := get_img container in
  let background := Image_filter_GaussianBlur background GAUSSIAN_KERNEL_RADIUS in
  let background :=
    Image_resize background
      (Py.int (inject_Z (width padding_img) * (1 + PADDING_PERCENT_IN_BACKGROUND)))
      (Py.int (inject_Z (height padding_img) * (1 + PADDING_PERCENT_IN_BACKGROUND))) in
  let fg :=
    Image_new "RGB" (width background) (height background) (ColorRGB 255 255 255) in
  let background := Image_blend background fg (1 # 10) in
  let background :=
    Image_paste background padding_img
      (Py.int (inject_Z (width padding_img) * PADDING_PERCENT_IN_BACKGROUND / 2))
      (Py.int (inject_Z (height padding_img) * PADDING_PERCENT_IN_BACKGROUND / 2)) in
  update_watermark_img container background.

End BackgroundBlurWithWhiteBorderProcessor.

(** ** ProcessorChain *)

Module ProcessorChain.

(** The state a chain works on: the [Config] objects, by reference, and the
    container.  A stage reads its config through the reference it was
    constructed with, so two stages constructed with one object share it. *)
Definition Store : Type := nat -> Config.t.

Record State : Type := {
  configs : Store;
  container : ImageContainer
}.

Definition assign (configs : Store) (ref : nat) (config : Config.t) : Store :=
  fun r => if Nat.eqb r ref then config else configs r.

Definition with_container (s : State) (c : ImageContainer) : State :=
  {| configs := configs s; container := c |}.

(** The watermark processor reading the current state of its config. *)
Definition bound (self : WatermarkProcessor.t) (config : Config.t) : WatermarkProcessor.t :=
  {| WatermarkProcessor.config := config;
     WatermarkProcessor.logo_position := WatermarkProcessor.logo_position self;
     WatermarkProcessor.logo_enable := WatermarkProcessor.logo_enable self;
     WatermarkProcessor.bg_color := WatermarkProcessor.bg_color self;
     WatermarkProcessor.line_color := WatermarkProcessor.line_color self;
     WatermarkProcessor.font_color_lt := WatermarkProcessor.font_color_lt self;
     WatermarkProcessor.bold_font_lt := WatermarkProcessor.bold_font_lt self;
     WatermarkProcessor.font_color_lb := WatermarkProcessor.font_color_lb self;
     WatermarkProcessor.bold_font_lb := WatermarkProcessor.bold_font_lb self;
     WatermarkProcessor.font_color_rt := WatermarkProcessor.font_color_rt self;
     WatermarkProcessor.bold_font_rt := WatermarkProcessor.bold_font_rt self;
     WatermarkProcessor.font_color_rb := WatermarkProcessor.font_color_rb self;
     WatermarkProcessor.bold_font_rb := WatermarkProcessor.bold_font_rb self |}.

(** The components: every leaf stage with the reference of its config, the
    watermark stages with the attributes set by their constructor, and the
    chain with its list of components. *)
Inductive Component : Type :=
| Empty (config : nat)
| Shadow (config : nat)
| Square (config : nat)
| Watermark (self : WatermarkProcessor.t) (config : nat)
| Margin (config : nat)
| Simple (config : nat)
| PaddingToOriginalRatio (config : nat)
| BackgroundBlur (config : nat)
| BackgroundBlurWithWhiteBorder (config : nat)
| PureWhiteMargin (config : nat)
| BackgroundBlurWithParams (config : nat)
| Chain (components : list Component).

(** [chain.add(component)] *)
Definition add (components : list Component) (component : Component) : list Component :=
  components ++ [component].

Section WithUtils.

Variable text_to_image : string -> Font -> Font -> bool -> Color -> Image.
Variable add_rounded_corners : Image -> Z -> Image.
Variable add_soft_shadow : Image -> Z -> Z * Z -> Z -> Image.
Variable square_image : Image -> Image.
Variable merge_images : list Image -> Z -> Z -> Image.
Variable resize_image_with_height : Image -> Z -> Image.
Variable get_alternative_font : Config.t -> Font.
Variable get_alternative_bold_font : Config.t -> Font.

(** [component.process(container)]; for a chain, the loop over its
    components in order. *)
Fixpoint process (component : Component) (s : State) : result State :=
  match component with
  | Empty _ => Ok s
  | Shadow _ => Ok (with_container s (ShadowProcessor.process (container s)))
  | Square _ =>
      Ok (with_container s (SquareProcessor.process square_image (container s)))
  | Watermark self ref =>
      r <- WatermarkProcessor.process text_to_image (bound self (configs s ref))
             (container s) ;;
      Ok {| configs := assign (configs s) ref (fst r); container := snd r |}
  | Margin ref =>
      Ok (with_container s (MarginProcessor.process (configs s ref) (container s)))
  | Simple ref =>
      c <- SimpleProcessor.process text_to_image merge_images resize_image_with_height
             get_alternative_font get_alternative_bold_font (configs s ref)
             (container s) ;;
      Ok (with_container s c)
  | PaddingToOriginalRatio _ =>
      c <- PaddingToOriginalRatioProcessor.process (container s) ;;
      Ok (with_container s c)
  | BackgroundBlur _ =>
      Ok (with_container s (BackgroundBlurProcessor.process (container s)))
  | BackgroundBlurWithWhiteBorder ref =>
      Ok (with_container s
            (BackgroundBlurWithWhiteBorderProcessor.process (configs s ref) (container s)))
  | PureWhiteMargin ref =>
      Ok (with_container s
            (PureWhiteMarginProcessor.process (configs s ref) (container s)))
  | BackgroundBlurWithParams ref =>
      c <- BackgroundBlurWithParamsProcessor.process text_to_image add_rounded_corners
             add_soft_shadow (configs s ref) (container s) ;;
      Ok (with_container s c)
  | Chain components =>
      (fix loop (components : list Component) (s : State) : result State :=
         match components with
         | [] => Ok s
         | component :: rest => s' <- process component s ;; loop rest s'
         end) components s
  end.

(** The loop of [ProcessorChain.process] on its own. *)
Fixpoint run (components : list Component) (s : State) : result State :=
  match components with
  | [] => Ok s
  | component :: rest => s' <- process component s ;; run rest s'
  end.

End WithUtils.

(** What no stage touches: the photo behind the working image and its
    metadata. *)
Definition same_photo (a b : ImageContainer) : Prop :=
  img a = img b
  /\ original_ratio a = original_ratio b
  /\ make a = make b
  /\ model a = model b
  /\ param_str a = param_str b
  /\ get_attribute_str a = get_attribute_str b.

(** Two states of a config that differ at most in [bg_color]. *)
Definition same_settings (a b : Config.t) : Prop :=
  Config.set_bg_color a (Config.bg_color b) = b.

End ProcessorChain.

(** ** Sample inputs *)

Module Sample.

(** A fixed-pitch rasterizer: bold glyphs are 50 x 100, regular ones 45 x 90. *)
Definition text_to_image (content : string) (font bold_font : Font)
    (is_bold : bool) (fill : Color) : Image :=
  if is_bold
  then Raster (50 * Z.of_nat (String.length content)) 100
  else Raster (45 * Z.of_nat (String.length content)) 90.

(** A rasterizer whose bold text is blank: a run of spaces 150 pixels wide
    with no ink, hence of height zero. *)
Definition blank_bold_text_to_image (content : string) (font bold_font : Font)
    (is_bold : bool) (fill : Color) : Image :=
  if is_bold
  then Raster 150 0
  else Raster (45 * Z.of_nat (String.length content)) 90.

Definition element (name : string) (bold : bool) : ElementConfig :=
  {| element_name := name; get_color := ColorStr "#212121"; is_bold := bold |}.

Definition logo : Image := Raster 400 300.

Definition config (logo_enabled logo_left : bool) (logo : option Image)
    (margin level : Z) : Config.t :=
  {| Config.bg_color := ColorStr "#ffffff";
     Config.get_background_color := ColorStr "#ffffff";
     Config.get_left_top := element "Model" true;
     Config.get_left_bottom := element "LensModel" false;
     Config.get_right_top := element "Param" true;
     Config.get_right_bottom := element "Datetime" false;
     Config.has_logo_enabled := logo_enabled;
     Config.is_logo_left := logo_left;
     Config.get_font := "AlibabaPuHuiTi-2-45-Light.otf";
     Config.get_bold_font := "AlibabaPuHuiTi-2-85-Bold.otf";
     Config.get_white_margin_width := margin;
     Config.get_font_padding_level := level;
     Config.load_logo := fun _ => logo |}.

Definition attribute (e : ElementConfig) : string :=
  if String.eqb (element_name e) "Model" then "ILCE-7M3"
  else if String.eqb (element_name e) "LensModel" then "FE 35mm F1.8"
  else if String.eqb (element_name e) "Param" then "35mm f/1.8 1/200s ISO100"
  else "2023-05-01 10:30".

(** A [w] x [h] working image of a photo shot at [ow] x [oh]. *)
Definition container (w h ow oh : Z) : ImageContainer :=
  {| img := Raster ow oh;
     watermark_img := Raster w h;
     original_ratio := (inject_Z ow / inject_Z oh)%Q;
     make := "SONY";
     model := "ILCE-7M3";
     param_str := "35mm f/1.8 1/200s ISO100";
     get_attribute_str := attribute |}.

End Sample.

(** ** Sample collaborators *)

Module SampleUtils.

Definition add_rounded_corners (image : Image) (radius : Z) : Image := image.

Definition add_soft_shadow (image : Image) (radius : Z) (offset : Z * Z)
    (opacity : Z) : Image :=
  ImageOps_expand image radius radius radius radius TRANSPARENT.

Definition square_image (image : Image) : Image :=
  let side := Z.max (width image) (height image) in
  Image_paste (Image_new "RGB" side side (ColorStr "white")) image
    ((side - width image) / 2) ((side - height image) / 2).

(** Images laid side by side ([axis] 0) or one below the other. *)
Definition merge_images (images : list Image) (axis align : Z) : Image :=
  if axis =? 0
  then Image_new "RGBA" (fold_right (fun im acc => width im + acc) 0 images)
         (fold_right (fun im acc => Z.max (height im) acc) 0 images) TRANSPARENT
  else Image_new "RGBA" (fold_right (fun im acc => Z.max (width im) acc) 0 images)
         (fold_right (fun im acc => height im + acc) 0 images) TRANSPARENT.

Definition resize_image_with_height (image : Image) (h : Z) : Image :=
  Image_resize image
    (Py.int (inject_Z (width image) / inject_Z (height image) * inject_Z h)%Q) h.

Definition get_alternative_font (config : Config.t) : Font := "Roboto-Regular.ttf".
Definition get_alternative_bold_font (config : Config.t) : Font := "Roboto-Medium.ttf".

(** One config object, of reference 0, seen by every stage. *)
Definition state (config : Config.t) (c : ImageContainer) : ProcessorChain.State :=
  {| ProcessorChain.configs := fun _ => config; ProcessorChain.container := c |}.

End SampleUtils.

(** * Properties *)

(** ** Arithmetic of [int] on non-negative floats *)

Lemma int_nonneg (x : Q) : (0 <= x)%Q -> Py.int x = Qfloor x.
Proof.
  destruct x as [n d]. unfold Qle, Py.int, Qfloor. simpl. intros H.
  apply Z.quot_div_nonneg; lia.
Qed.

Lemma int_scale (n a : Z) (b : positive) :
  0 <= n -> 0 <= a -> Py.int (inject_Z n * (a # b))%Q = n * a / Z.pos b.
Proof.
  intros Hn Ha. unfold Py.int. simpl.
  apply Z.quot_div_nonneg; nia.
Qed.

Lemma int_scale_half (n a : Z) (b : positive) :
  0 <= n -> 0 <= a -> Py.int (inject_Z n * (a # b) / 2)%Q = n * a / Z.pos b / 2.
Proof.
  intros Hn Ha. unfold Py.int. simpl.
  rewrite Z.quot_div_nonneg by nia.
  rewrite Z.mul_1_r, Pos2Z.inj_mul, Z.div_div by lia. reflexivity.
Qed.

Lemma int_ratio (p m : Z) :
  0 <= p -> 0 <= m -> Py.int (inject_Z p * inject_Z m / 100)%Q = p * m / 100.
Proof.
  intros Hp Hm. unfold Py.int. simpl. rewrite Z.mul_1_r.
  apply Z.quot_div_nonneg; [apply Z.mul_nonneg_nonneg; assumption | lia].
Qed.

(** ** Margins *)

(** C6.  With a margin-width percent [p >= 0] and a working image of size
    [W] x [H], [MarginProcessor] adds a border of [floor (p * min W H / 100)]
    pixels on the left, the top and the right and none at the bottom;
    [PureWhiteMarginProcessor] adds that border on all four sides. *)
Theorem margin_border_thickness (config : Config.t) (container : ImageContainer) :
  0 <= Config.get_white_margin_width config ->
  0 <= get_width container ->
  0 <= get_height container ->
  let W := get_width container in
  let H := get_height container in
  let thickness := Config.get_white_margin_width config * Z.min W H / 100 in
  let margin := watermark_img (MarginProcessor.process config container) in
  let pure_white := watermark_img (PureWhiteMarginProcessor.process config container) in
  margin = ImageOps_expand (get_watermark_img container)
             thickness thickness thickness 0 (Config.bg_color config)
  /\ size margin = (W + 2 * thickness, H + thickness)
  /\ pure_white = ImageOps_expand (get_watermark_img container)
                    thickness thickness thickness thickness (Config.bg_color config)
  /\ size pure_white = (W + 2 * thickness, H + 2 * thickness).
Proof.
  intros Hp HW HH W H thickness margin pure_white.
  assert (Hm : margin = ImageOps_expand (get_watermark_img container)
             thickness thickness thickness 0 (Config.bg_color config)).
  { unfold margin, MarginProcessor.process, padding_image. simpl.
    rewrite int_ratio by lia. reflexivity. }
  assert (Hw : pure_white = ImageOps_expand (get_watermark_img container)
             thickness thickness thickness thickness (Config.bg_color config)).
  { unfold pure_white, PureWhiteMarginProcessor.process, padding_image. simpl.
    rewrite int_ratio by lia. reflexivity. }
  repeat split; trivial.
  - rewrite Hm. unfold size. cbn [width height]. subst W H.
    unfold get_width, get_height. f_equal; lia.
  - rewrite Hw. unfold size. cbn [width height]. subst W H.
    unfold get_width, get_height. f_equal; lia.
Qed.

(** The 3000 x 4000 photo with margin width 5: a border of 150 pixels, hence
    3300 x 4300 from [PureWhiteMarginProcessor] and 3300 x 4150 from
    [MarginProcessor]. *)
Lemma margin_border_thickness_witness :
  let config := Sample.config true true None 5 0 in
  let container := Sample.container 3000 4000 3000 4000 in
  size (watermark_img (PureWhiteMarginProcessor.process config container)) = (3300, 4300)
  /\ size (watermark_img (MarginProcessor.process config container)) = (3300, 4150).
Proof.
  intros config container.
  destruct (margin_border_thickness config container) as (_ & Hm & _ & Hw).
  - vm_compute. discriminate.
  - vm_compute. discriminate.
  - vm_compute. discriminate.
  - split; [exact Hw | exact Hm].
Defined.

(** ** Blurred background *)

(** C7.  On a working image of [N] x [M] pixels [BackgroundBlurProcessor]
    yields an image of [floor (1.18 N)] x [floor (1.18 M)] pixels: the working
    image blurred, blended one tenth toward white and resized, with the
    working image itself pasted at the centred offset (half of the added
    width and height, rounded down). *)
Theorem background_blur_dimensions (container : ImageContainer) :
  0 <= get_width container ->
  0 <= get_height container ->
  let N := get_width container in
  let M := get_height container in
  let original := get_watermark_img container in
  let backdrop :=
    Image_blend (Image_filter_GaussianBlur original GAUSSIAN_KERNEL_RADIUS)
      (Image_new "RGB" N M (ColorRGB 255 255 255)) (1 # 10) in
  let out := watermark_img (BackgroundBlurProcessor.process container) in
  size out = (Qfloor (inject_Z N * (118 # 100)), Qfloor (inject_Z M * (118 # 100)))
  /\ size out = (N * 118 / 100, M * 118 / 100)
  /\ out = Image_paste (Image_resize backdrop (width out) (height out)) original
             ((width out - N) / 2) ((height out - M) / 2).
Proof.
  intros HN HM N M original backdrop out.
  assert (Hout : out = Image_paste
            (Image_resize backdrop (N * 118 / 100) (M * 118 / 100)) original
            (N * 18 / 100 / 2) (M * 18 / 100 / 2)).
  { unfold out, BackgroundBlurProcessor.process.
    change (1 + PADDING_PERCENT_IN_BACKGROUND)%Q with (118 # 100)%Q.
    unfold PADDING_PERCENT_IN_BACKGROUND.
    rewrite !int_scale, !int_scale_half by lia. reflexivity. }
  assert (Hhalf : forall n, (n * 118 / 100 - n) / 2 = n * 18 / 100 / 2).
  { intros n. replace (n * 118) with (n * 18 + n * 100) by ring.
    rewrite Z.div_add by lia. f_equal. ring. }
  rewrite Hout. unfold size. cbn [width height]. rewrite !Hhalf.
  repeat split.
Qed.

Lemma background_blur_dimensions_witness :
  size (watermark_img (BackgroundBlurProcessor.process
          (Sample.container 4000 3000 4000 3000))) = (4720, 3540).
Proof.
  destruct (background_blur_dimensions (Sample.container 4000 3000 4000 3000))
    as (_ & H & _).
  - vm_compute. discriminate.
  - vm_compute. discriminate.
  - exact H.
Defined.

(** ** Watermark band: the two text columns *)

Lemma normalize_columns_height (left right : Image) (padding_ratio : Q) :
  let padding :=
    Py.int (inject_Z (Z.max (height left) (height right)) * padding_ratio) in
  let normalized := WatermarkProcessor.normalize_columns left right padding_ratio in
  height (fst normalized) = height left + 2 * padding
  /\ height (snd normalized) = height left + 2 * padding.
Proof.
  unfold WatermarkProcessor.normalize_columns, padding_image.
  cbn [fst snd height Py.contains Ascii.eqb Bool.eqb orb].
  split; lia.
Qed.

(** C1.  Whatever the rasterizer returns for the four quadrant texts of a
    container (empty texts included), the two columns leave the normalization
    step with the same height: with [p = int (padding_ratio * max_height)],
    the left column is padded by [p] at the top and at the bottom, the right
    column by [p] at the top, and then at the bottom by what is missing to the
    height of the left column. *)
Theorem columns_equal_height
    (text_to_image : string -> Font -> Font -> bool -> Color -> Image)
    (self : WatermarkProcessor.t) (config : Config.t) (container : ImageContainer)
    (padding_ratio : Q) :
  let rendered := WatermarkProcessor.columns text_to_image self config container in
  let left := fst rendered in
  let right := snd rendered in
  let max_height := Z.max (height left) (height right) in
  let padding := Py.int (inject_Z max_height * padding_ratio) in
  let normalized := WatermarkProcessor.normalize_columns left right padding_ratio in
  height (fst normalized) = height (snd normalized)
  /\ height (fst normalized) = height left + 2 * padding
  /\ fst normalized = padding_image left padding "tb" ColorNone
  /\ fst normalized = ImageOps_expand left 0 padding 0 padding ColorNone
  /\ snd normalized =
       padding_image (padding_image right padding "t" ColorNone)
         (height (fst normalized) - height (padding_image right padding "t" ColorNone))
         "b" ColorNone
  /\ snd normalized =
       ImageOps_expand (ImageOps_expand right 0 padding 0 0 ColorNone)
         0 0 0 (height left + padding - height right) ColorNone.
Proof.
  intros rendered left right max_height padding normalized.
  destruct (normalize_columns_height left right padding_ratio) as [Hl Hr].
  fold max_height padding normalized in Hl, Hr.
  split; [congruence|]. split; [exact Hl|].
  split; [reflexivity|]. split; [reflexivity|]. split; [reflexivity|].
  unfold normalized, WatermarkProcessor.normalize_columns, padding_image.
  cbn [fst snd height Py.contains Ascii.eqb Bool.eqb orb].
  fold max_height padding. f_equal. lia.
Qed.

(** ** Watermark band: logo side and divider line *)

(** C10, as amended.  [CustomWatermarkProcessor] stores the boolean returned
    by the config's [is_logo_left] in [logo_position]; comparing it with the
    string ['left'] is false for both booleans, so with the logo enabled the
    layout takes the logo-on-the-right branch whatever the configured side,
    and with the logo disabled the branch without a logo. *)
Theorem custom_watermark_logo_side (config : Config.t) :
  let self := CustomWatermarkProcessor.init config in
  WatermarkProcessor.logo_position self = Py.Bool (Config.is_logo_left config)
  /\ WatermarkProcessor.is_logo_left self = false
  /\ WatermarkProcessor.assembly_branch self =
       if Config.has_logo_enabled config
       then WatermarkProcessor.LogoRight
       else WatermarkProcessor.NoLogo.
Proof.
  cbv zeta. split; [reflexivity|]. split; [reflexivity|].
  unfold WatermarkProcessor.assembly_branch. cbn.
  destruct (Config.has_logo_enabled config); reflexivity.
Qed.

(** C10, as stated, fails when the config disables the logo: the layout then
    takes the branch without a logo, not the logo-on-the-right one. *)
Lemma custom_watermark_logo_side_counterexample :
  let config := Sample.config false true (Some Sample.logo) 5 0 in
  let self := CustomWatermarkProcessor.init config in
  WatermarkProcessor.is_logo_left self = false
  /\ WatermarkProcessor.assembly_branch self = WatermarkProcessor.NoLogo
  /\ WatermarkProcessor.assembly_branch self <> WatermarkProcessor.LogoRight.
Proof.
  cbv zeta. split; [reflexivity|]. split; [reflexivity|]. discriminate.
Qed.

Lemma left_logo_absent_raises (self : WatermarkProcessor.t)
    (watermark left right : Image) (padding_ratio : Q) :
  WatermarkProcessor.assembly_branch self = WatermarkProcessor.LogoLeft ->
  WatermarkProcessor.assemble self watermark left right None padding_ratio
  = Raise AttributeError.
Proof.
  intros H. unfold WatermarkProcessor.assemble. rewrite H. reflexivity.
Qed.

Lemma branch_of_position (self : WatermarkProcessor.t) (position : string) :
  WatermarkProcessor.logo_enable self = true ->
  WatermarkProcessor.logo_position self = Py.Str position ->
  WatermarkProcessor.assembly_branch self =
    if String.eqb position "left"
    then WatermarkProcessor.LogoLeft
    else WatermarkProcessor.LogoRight.
Proof.
  intros He Hp.
  unfold WatermarkProcessor.assembly_branch, WatermarkProcessor.is_logo_left.
  rewrite He, Hp. reflexivity.
Qed.

(** C8, as amended.  With the logo enabled and the logo on the right, the
    band is the blank band with the left column drawn at its start and then,
    on its right side, the images logo, line, right column in that order:
    the line is between the logo and the right text column.  That line is
    the padded gray line when the loader returned a bitmap and the
    transparent spacer when it returned none (the logo is then left out of
    the list).  With the logo on the left and a bitmap returned, the band is
    the blank band with line, logo, left column drawn on its left side in
    that order and then the right column on its right side: the line is the
    transparent spacer, drawn before the logo. *)
Theorem divider_line (self : WatermarkProcessor.t) (watermark left right : Image)
    (logo : option Image) (padding_ratio : Q) :
  WatermarkProcessor.logo_enable self = true ->
  (WatermarkProcessor.logo_position self = Py.Str "right" ->
   exists line,
     WatermarkProcessor.assemble self watermark left right logo padding_ratio
     = Ok (append_image_by_side
             (append_image_by_side watermark [Some left] "left" true)
             [option_map
                (fun bitmap =>
                   padding_image_default bitmap
                     (Py.int (padding_ratio * inject_Z (height bitmap))))
                logo;
              Some line;
              Some right]
             "right" false,
           Some line)
     /\ line = match logo with
               | Some _ =>
                   padding_image_default LINE_GRAY
                     (Py.int (padding_ratio * inject_Z (height LINE_GRAY) * (8 # 10)))
               | None => LINE_TRANSPARENT
               end
     /\ solid line = match logo with Some _ => true | None => false end)
  /\ (WatermarkProcessor.logo_position self = Py.Str "left" ->
      forall bitmap, logo = Some bitmap ->
      WatermarkProcessor.assemble self watermark left right logo padding_ratio
      = Ok (append_image_by_side
              (append_image_by_side watermark
                 [Some LINE_TRANSPARENT;
                  Some (padding_image_default bitmap
                          (Py.int (padding_ratio * inject_Z (height bitmap))));
                  Some left]
                 "left" false)
              [Some right] "right" false,
            Some LINE_TRANSPARENT)
      /\ solid LINE_TRANSPARENT = false).
Proof.
  intros He. split.
  - intros Hp. pose proof (branch_of_position self "right" He Hp) as Hb.
    cbn in Hb. unfold WatermarkProcessor.assemble. rewrite Hb.
    destruct logo as [bitmap|]; eexists; repeat split.
  - intros Hp bitmap ->. pose proof (branch_of_position self "left" He Hp) as Hb.
    cbn in Hb. unfold WatermarkProcessor.assemble. rewrite Hb.
    split; reflexivity.
Qed.

(** The logo on the right with a bitmap of 400 x 300: the band holds the
    logo, the solid line and the right column, in that order. *)
Lemma divider_line_witness :
  let self := WatermarkRightLogoProcessor.init (Sample.config true false None 5 0) in
  exists logo line,
    WatermarkProcessor.assemble self (Raster 25000 1000) (Raster 600 500)
      (Raster 900 500) (Some Sample.logo) (52 # 100)
    = Ok (append_image_by_side
            (append_image_by_side (Raster 25000 1000) [Some (Raster 600 500)]
               "left" true)
            [Some logo; Some line; Some (Raster 900 500)] "right" false,
          Some line)
    /\ solid line = true.
Proof.
  intros self.
  destruct (divider_line self (Raster 25000 1000) (Raster 600 500) (Raster 900 500)
              (Some Sample.logo) (52 # 100) eq_refl) as [Hright _].
  destruct (Hright eq_refl) as (line & Ha & _ & Hs).
  eexists. exists line. split; [exact Ha | exact Hs].
Defined.

(** C8, as stated, fails for the logo on the left: with the logo enabled and
    a bitmap returned by the loader the line is the transparent spacer. *)
Lemma divider_line_counterexample :
  let self := WatermarkLeftLogoProcessor.init (Sample.config true true None 5 0) in
  WatermarkProcessor.logo_enable self = true
  /\ WatermarkProcessor.logo_position self = Py.Str "left"
  /\ exists band,
       WatermarkProcessor.assemble self (Raster 25000 1000) (Raster 600 500)
         (Raster 900 500) (Some Sample.logo) (52 # 100)
       = Ok (band, Some LINE_TRANSPARENT)
       /\ solid LINE_TRANSPARENT = false.
Proof.
  cbv zeta. split; [reflexivity|]. split; [reflexivity|].
  eexists. split; reflexivity.
Qed.

(** ** Divisions that cannot fail *)

Lemma truediv_nonzero (a b : Q) : ~ (b == 0)%Q -> Py.truediv a b = Ok (a / b)%Q.
Proof.
  intros H. unfold Py.truediv.
  destruct (Qeq_bool b 0) eqn:E; [|reflexivity].
  apply Qeq_bool_eq in E. contradiction.
Qed.

Lemma truediv_inject (a : Q) (d : Z) :
  d <> 0 -> Py.truediv a (inject_Z d) = Ok (a / inject_Z d)%Q.
Proof.
  intros H. apply truediv_nonzero. unfold Qeq. simpl. lia.
Qed.

Lemma float_truediv_inject (a : Q) (d : Z) :
  d <> 0 -> Float.truediv a (inject_Z d) = Ok (Float.round (a / inject_Z d)).
Proof.
  intros H. unfold Float.truediv.
  destruct (Qeq_bool (inject_Z d) 0) eqn:E; [|reflexivity].
  apply Qeq_bool_eq in E. unfold Qeq in E. simpl in E. lia.
Qed.

Lemma width_scale_total (max_text_width w : Z) :
  BackgroundBlurWithParamsProcessor.width_scale max_text_width w
  = Ok (if 0 <? w then Float.round (inject_Z max_text_width / inject_Z w) else 1%Q).
Proof.
  unfold BackgroundBlurWithParamsProcessor.width_scale.
  destruct (0 <? w) eqn:E; [|reflexivity].
  apply Z.ltb_lt in E. apply float_truediv_inject. lia.
Qed.

Lemma scale_factor_positive_height (params_area_height max_text_width total : Z)
    (model_image param_image : Image) :
  0 < total ->
  BackgroundBlurWithParamsProcessor.scale_factor params_area_height max_text_width
    total model_image param_image
  = Ok (Py.min (Float.round (inject_Z params_area_height / inject_Z total))
          (let w := Z.max (width model_image) (width param_image) in
           if 0 <? w then Float.round (inject_Z max_text_width / inject_Z w)
           else 1%Q)).
Proof.
  intros H. unfold BackgroundBlurWithParamsProcessor.scale_factor.
  rewrite float_truediv_inject by lia. cbn [bind].
  rewrite width_scale_total. reflexivity.
Qed.

Lemma resize_raises (im : Image) (w h : Z) (e : exn) :
  resize im w h = Raise e -> e = ValueError.
Proof.
  unfold resize. destruct ((w <? 1) || (h <? 1)); [|discriminate].
  intros [= <-]. reflexivity.
Qed.

Lemma resize_returns (im im' : Image) (w h : Z) :
  resize im w h = Ok im' -> im' = Image_resize im w h /\ 1 <= w /\ 1 <= h.
Proof.
  unfold resize. destruct ((w <? 1) || (h <? 1)) eqn:E; [discriminate|].
  intros [= <-]. apply orb_false_iff in E. destruct E as [Ew Eh].
  apply Z.ltb_ge in Ew. apply Z.ltb_ge in Eh. repeat split; assumption.
Qed.

Lemma resize_ok (im : Image) (w h : Z) :
  1 <= w -> 1 <= h -> resize im w h = Ok (Image_resize im w h).
Proof.
  intros Hw Hh. unfold resize.
  replace ((w <? 1) || (h <? 1)) with false; [reflexivity|].
  symmetry. apply orb_false_iff. split; apply Z.ltb_ge; assumption.
Qed.

Lemma scaled_zero (image : Image) (s : Q) :
  height image = 0 -> BackgroundBlurWithParamsProcessor.scaled image s = Ok image.
Proof.
  intros H. unfold BackgroundBlurWithParamsProcessor.scaled. rewrite H. reflexivity.
Qed.

Lemma scaled_positive (image : Image) (s : Q) :
  0 < height image ->
  BackgroundBlurWithParamsProcessor.scaled image s
  = resize image (Py.int (Float.mul (inject_Z (width image)) s))
      (Py.int (Float.mul (inject_Z (height image)) s)).
Proof.
  intros H. unfold BackgroundBlurWithParamsProcessor.scaled.
  apply Z.ltb_lt in H. rewrite H. reflexivity.
Qed.

Lemma scaled_raises (image : Image) (s : Q) (e : exn) :
  BackgroundBlurWithParamsProcessor.scaled image s = Raise e -> e = ValueError.
Proof.
  unfold BackgroundBlurWithParamsProcessor.scaled.
  destruct (0 <? height image); [apply resize_raises | discriminate].
Qed.

Lemma scale_text_images_raises (params_area_height max_text_width total : Z)
    (model_image param_image : Image) (e : exn) :
  BackgroundBlurWithParamsProcessor.scale_text_images params_area_height
    max_text_width total model_image param_image = Raise e ->
  e = ValueError.
Proof.
  unfold BackgroundBlurWithParamsProcessor.scale_text_images.
  destruct (0 <? total) eqn:E; [|discriminate].
  apply Z.ltb_lt in E. rewrite scale_factor_positive_height by exact E.
  cbn [bind].
  match goal with
  | |- context [BackgroundBlurWithParamsProcessor.scaled model_image ?s] =>
      destruct (BackgroundBlurWithParamsProcessor.scaled model_image s) eqn:Em;
      cbn [bind]; [|intros [= <-]; apply (scaled_raises _ _ _ Em)];
      destruct (BackgroundBlurWithParamsProcessor.scaled param_image s) eqn:Ep;
      cbn [bind]; [discriminate | intros [= <-]; apply (scaled_raises _ _ _ Ep)]
  end.
Qed.

(** C9.  The scaling block of [BackgroundBlurWithParamsProcessor] never
    divides by zero.  The width scale is the neutral factor 1 when the widest
    text bitmap has width zero and is defined for every width; inside the
    guard on the total text height the scale factor is computed without
    raising; the block is skipped when the total text height is zero, and two
    bitmaps of height zero are left as rendered.  The only exception the
    block, the rendering and scaling of the two texts, and the whole stage
    can raise is the [ValueError] of a resize to a size below 1 x 1. *)
Theorem scaling_never_divides_by_zero :
  (forall max_text_width,
     BackgroundBlurWithParamsProcessor.width_scale max_text_width 0 = Ok 1%Q)
  /\ (forall max_text_width w, exists s,
        BackgroundBlurWithParamsProcessor.width_scale max_text_width w = Ok s)
  /\ (forall params_area_height max_text_width total model_image param_image,
        0 < total ->
        exists s,
          BackgroundBlurWithParamsProcessor.scale_factor params_area_height
            max_text_width total model_image param_image = Ok s)
  /\ (forall params_area_height max_text_width model_image param_image,
        BackgroundBlurWithParamsProcessor.scale_text_images params_area_height
          max_text_width 0 model_image param_image
        = Ok (model_image, param_image))
  /\ (forall params_area_height max_text_width model_image param_image,
        height model_image = 0 -> height param_image = 0 ->
        BackgroundBlurWithParamsProcessor.scale_text_images params_area_height
          max_text_width (height model_image + height param_image + 10)
          model_image param_image
        = Ok (model_image, param_image))
  /\ (forall params_area_height max_text_width total model_image param_image e,
        BackgroundBlurWithParamsProcessor.scale_text_images params_area_height
          max_text_width total model_image param_image = Raise e ->
        e = ValueError)
  /\ (forall text_to_image config container e,
        BackgroundBlurWithParamsProcessor.text_images text_to_image config container
        = Raise e ->
        e = ValueError)
  /\ (forall text_to_image add_rounded_corners add_soft_shadow config container e,
        BackgroundBlurWithParamsProcessor.process text_to_image add_rounded_corners
          add_soft_shadow config container = Raise e ->
        e = ValueError).
Proof.
  split; [reflexivity|].
  split; [intros; rewrite width_scale_total; eexists; reflexivity|].
  split; [intros; rewrite scale_factor_positive_height by assumption;
          eexists; reflexivity|].
  split; [reflexivity|].
  split.
  { intros band budget m p Hm Hp.
    unfold BackgroundBlurWithParamsProcessor.scale_text_images.
    rewrite Hm, Hp. cbn [Z.add Z.ltb Z.compare].
    rewrite scale_factor_positive_height by lia. cbn [bind].
    rewrite !scaled_zero by assumption. reflexivity. }
  split; [intros; eapply scale_text_images_raises; eassumption|].
  split.
  { intros text_to_image config container e.
    unfold BackgroundBlurWithParamsProcessor.text_images.
    apply scale_text_images_raises. }
  intros text_to_image add_rounded_corners add_soft_shadow config container e.
  unfold BackgroundBlurWithParamsProcessor.process.
  match goal with
  | |- context [resize ?i ?w ?h] => destruct (resize i w h) eqn:Er
  end; cbn [bind]; [|intros [= <-]; apply (resize_raises _ _ _ _ Er)].
  destruct (BackgroundBlurWithParamsProcessor.text_images text_to_image config container)
    eqn:Et; cbn [bind]; [discriminate|].
  intros [= <-]. unfold BackgroundBlurWithParamsProcessor.text_images in Et.
  apply (scale_text_images_raises _ _ _ _ _ _ Et).
Qed.

(** Two empty bitmaps in a band of 240 rows with a width budget of 3000; a
    text of 1080 x 90 on a 100 x 30 photo scales to 10 x 0 and the resize
    raises. *)
Lemma scaling_never_divides_by_zero_witness :
  BackgroundBlurWithParamsProcessor.width_scale 3000 0 = Ok 1%Q
  /\ BackgroundBlurWithParamsProcessor.scale_text_images 240 3000
       (height (Raster 0 0) + height (Raster 0 0) + 10) (Raster 0 0) (Raster 0 0)
     = Ok (Raster 0 0, Raster 0 0)
  /\ (exists s,
        BackgroundBlurWithParamsProcessor.scale_factor 2 75 200
          (Raster 400 100) (Raster 1080 90) = Ok s)
  /\ BackgroundBlurWithParamsProcessor.text_images Sample.text_to_image
       (Sample.config true true None 5 0) (Sample.container 100 30 100 30)
     = Raise ValueError.
Proof.
  destruct scaling_never_divides_by_zero as (Hw & _ & Hs & _ & Hz & _ & Ht & _).
  split; [apply Hw|]. split; [apply Hz; reflexivity|].
  split; [apply Hs; reflexivity|].
  destruct (BackgroundBlurWithParamsProcessor.text_images Sample.text_to_image
              (Sample.config true true None 5 0) (Sample.container 100 30 100 30))
    as [images|e] eqn:E.
  - vm_compute in E. discriminate E.
  - rewrite (Ht _ _ _ _ E). reflexivity.
Defined.

(** ** Watermark band composited under the photo *)

Lemma get_ratio_ok (container : ImageContainer) :
  get_height container <> 0 ->
  get_ratio container
  = Ok (inject_Z (get_width container) / inject_Z (get_height container))%Q.
Proof.
  intros H. unfold get_ratio. apply truediv_inject. exact H.
Qed.

Lemma band_ratio_nonzero (landscape : bool) (level : Z) :
  0 <= level ->
  ~ ((if landscape then 4 # 100 else 9 # 100) + (2 # 100) * inject_Z level == 0)%Q.
Proof.
  intros Hl E.
  assert (Hq : (0 <= inject_Z level)%Q)
    by (change 0%Q with (inject_Z 0); rewrite <- Zle_Qle; exact Hl).
  destruct landscape; lra.
Qed.

Lemma assemble_ok (self : WatermarkProcessor.t) (watermark left right : Image)
    (logo : option Image) (padding_ratio : Q) :
  (WatermarkProcessor.assembly_branch self = WatermarkProcessor.LogoLeft ->
   logo <> None) ->
  exists assembled,
    WatermarkProcessor.assemble self watermark left right logo padding_ratio
    = Ok assembled
    /\ size (fst assembled) = size watermark.
Proof.
  intros Hlogo. unfold WatermarkProcessor.assemble.
  destruct (WatermarkProcessor.assembly_branch self).
  - destruct logo as [bitmap|]; [|exfalso; apply Hlogo; reflexivity].
    eexists. split; reflexivity.
  - destruct logo as [bitmap|]; eexists; split; reflexivity.
  - eexists. split; reflexivity.
Qed.

Lemma band_ok (text_to_image : string -> Font -> Font -> bool -> Color -> Image)
    (self : WatermarkProcessor.t) (container : ImageContainer) :
  get_height container <> 0 ->
  0 <= Config.get_font_padding_level (WatermarkProcessor.config self) ->
  (WatermarkProcessor.assembly_branch self = WatermarkProcessor.LogoLeft ->
   Config.load_logo (WatermarkProcessor.config self) (make container) <> None) ->
  exists band,
    WatermarkProcessor.band text_to_image self container = Ok band
    /\ width band = get_width container.
Proof.
  intros HH Hlevel Hlogo. unfold WatermarkProcessor.band.
  rewrite get_ratio_ok by exact HH. cbn [bind Config.set_bg_color
    Config.get_font_padding_level Config.load_logo].
  rewrite truediv_nonzero by (apply band_ratio_nonzero; exact Hlevel).
  cbn [bind].
  match goal with
  | |- context [WatermarkProcessor.assemble ?s ?w ?l ?r ?g ?p] =>
      destruct (assemble_ok s w l r g p Hlogo) as (assembled & Ha & _);
      rewrite Ha
  end.
  cbn [bind]. eexists. split; reflexivity.
Qed.

(** C2.  Whenever the stage returns, for every variant of the processor, the
    output is as wide as the working image and taller by the height of the
    band scaled to the working width; the photo fills the rows above the band
    and the band the rows below the photo.  The stage does return when the
    working image has a non-zero height, the font-padding level is not
    negative and the logo-on-the-left branch is given a logo. *)
Theorem watermark_output_size
    (text_to_image : string -> Font -> Font -> bool -> Color -> Image)
    (self : WatermarkProcessor.t) (container : ImageContainer) :
  let W := get_width container in
  let H := get_height container in
  (forall config' out,
     WatermarkProcessor.process text_to_image self container = Ok (config', out) ->
     exists band bg fg,
       WatermarkProcessor.band text_to_image self container = Ok band
       /\ width band = W
       /\ width (watermark_img out) = W
       /\ height (watermark_img out) = H + height band
       /\ watermark_img out
          = Image_convert (ImageOps_exif_transpose (Image_alpha_composite bg fg)) "RGB"
       /\ bg = ImageOps_expand (Image_convert (get_watermark_img container) "RGBA")
                 0 0 0 (height band) (WatermarkProcessor.bg_color self)
       /\ fg = ImageOps_expand band 0 H 0 0 TRANSPARENT
       /\ inner_box bg = (0, 0, W, H)
       /\ inner_box fg = (0, H, W, H + height band))
  /\ (H <> 0 ->
      0 <= Config.get_font_padding_level (WatermarkProcessor.config self) ->
      (WatermarkProcessor.assembly_branch self = WatermarkProcessor.LogoLeft ->
       Config.load_logo (WatermarkProcessor.config self) (make container) <> None) ->
      exists config' out,
        WatermarkProcessor.process text_to_image self container = Ok (config', out)).
Proof.
  intros W H. split.
  - intros config' out Hp. unfold WatermarkProcessor.process in Hp.
    destruct (WatermarkProcessor.band text_to_image self container) as [band|e];
      cbn [bind] in Hp; [|discriminate Hp].
    unfold alpha_composite in Hp.
    match type of Hp with
    | context [if ?c then _ else _] => destruct c eqn:Hc
    end; cbn [bind] in Hp; [|discriminate Hp].
    injection Hp as <- <-.
    apply andb_true_iff in Hc. destruct Hc as [Hw Hh].
    apply Z.eqb_eq in Hw. apply Z.eqb_eq in Hh.
    cbn [expand4 width height] in Hw, Hh.
    exists band. do 2 eexists.
    split; [reflexivity|].
    cbn [watermark_img update_watermark_img expand4 width height inner_box].
    subst W H. unfold get_width, get_height.
    assert (Hband : width band = width (get_watermark_img container)) by lia.
    repeat split; try reflexivity; try lia.
    cbn [inner_box]. rewrite Hband, Z.add_0_l. reflexivity.
  - intros HH Hlevel Hlogo.
    destruct (band_ok text_to_image self container HH Hlevel Hlogo) as (band & Hb & Hw).
    unfold WatermarkProcessor.process. rewrite Hb. cbn [bind expand4].
    unfold alpha_composite. cbn [width height].
    fold (get_width container) (get_height container). rewrite Hw.
    replace ((0 + get_width container + 0 =? 0 + get_width container + 0)
             && (0 + get_height container + height band
                 =? get_height container + height band + 0)) with true
      by (symmetry; apply andb_true_iff; split; apply Z.eqb_eq; lia).
    cbn [bind]. do 2 eexists. reflexivity.
Qed.

(** The 4000 x 3000 photo under the left-logo variant: the band of
    25000 x 1000 is scaled to 4000 x 160 and the output is 4000 x 3160. *)
Lemma watermark_output_size_witness :
  let self :=
    WatermarkLeftLogoProcessor.init (Sample.config true true (Some Sample.logo) 5 0) in
  let container := Sample.container 4000 3000 4000 3000 in
  exists band config' out,
    WatermarkProcessor.process Sample.text_to_image self container = Ok (config', out)
    /\ WatermarkProcessor.band Sample.text_to_image self container = Ok band
    /\ height band = 160
    /\ size (watermark_img out) = (4000, 3160).
Proof.
  intros self container.
  destruct (watermark_output_size Sample.text_to_image self container)
    as [Hsize Hruns].
  destruct Hruns as (config' & out & Hp).
  - vm_compute. discriminate.
  - vm_compute. discriminate.
  - intros _. vm_compute. discriminate.
  - destruct (Hsize config' out Hp) as (band & bg & fg & Hb & _ & Hw & Hh & _).
    exists band, config', out. split; [exact Hp|]. split; [exact Hb|].
    assert (E : height band = 160).
    { vm_compute in Hb. injection Hb as <-. reflexivity. }
    split; [exact E|]. unfold size. rewrite Hw, Hh, E. reflexivity.
Defined.

(** ** Padding to the original ratio *)

Lemma int_nonpos (x : Q) : (x <= 0)%Q -> Py.int x <= 0.
Proof.
  destruct x as [n d]. unfold Qle, Py.int. simpl. intros H.
  transitivity (0 ÷ Z.pos d).
  - apply Z.quot_le_mono; lia.
  - rewrite Z.quot_0_l; lia.
Qed.

Lemma Qdiv_cancel (a b : Q) : (0 < b)%Q -> (a == a / b * b)%Q.
Proof.
  intros Hb. field. intros E. rewrite E in Hb. discriminate Hb.
Qed.

Lemma Qlt_div_mult (a b c : Q) : (0 < b)%Q -> (a / b < c)%Q -> (a < c * b)%Q.
Proof.
  intros Hb H. rewrite (Qdiv_cancel a b Hb) at 1.
  apply Qmult_lt_compat_r; assumption.
Qed.

Lemma Qle_div_mult (a b c : Q) : (0 < b)%Q -> (c <= a / b)%Q -> (c * b <= a)%Q.
Proof.
  intros Hb H. rewrite (Qdiv_cancel a b Hb) at 1.
  apply Qmult_le_compat_r; [assumption | apply Qlt_le_weak; assumption].
Qed.

(** X11.  With the ratio of the working image as the current ratio, neither
    branch of the stage ever computes a positive padding: the output is never
    wider and never taller than the working image. *)
Lemma padding_to_original_ratio_never_pads (container out : ImageContainer) :
  0 < get_width container ->
  0 < get_height container ->
  (0 < get_original_ratio container)%Q ->
  PaddingToOriginalRatioProcessor.process container = Ok out ->
  width (watermark_img out) <= get_width container
  /\ height (watermark_img out) <= get_height container.
Proof.
  intros HW HH Hr. unfold PaddingToOriginalRatioProcessor.process.
  rewrite get_ratio_ok by lia. cbn [bind].
  set (W := get_width container) in *. set (H := get_height container) in *.
  set (r0 := get_original_ratio container) in *.
  assert (HWq : (0 < inject_Z W)%Q)
    by (change 0%Q with (inject_Z 0); rewrite <- Zlt_Qlt; exact HW).
  assert (HHq : (0 < inject_Z H)%Q)
    by (change 0%Q with (inject_Z 0); rewrite <- Zlt_Qlt; exact HH).
  destruct (Py.gt r0 (inject_Z W / inject_Z H)) eqn:E.
  - unfold PaddingToOriginalRatioProcessor.pad_height. fold W H.
    rewrite truediv_nonzero by (intros E0; rewrite E0 in Hr; discriminate Hr).
    cbn [bind expand2]. intros [= <-]. cbn [watermark_img update_watermark_img width height].
    fold (get_width container) (get_height container). fold W H.
    assert (Hp : Py.int (inject_Z W / r0 - inject_Z H) <= 0).
    { apply int_nonpos. unfold Py.gt in E. apply negb_true_iff in E.
      assert (Hlt : (inject_Z W / inject_Z H < r0)%Q).
      { apply Qnot_le_lt. intros Hle. apply Qle_bool_iff in Hle. congruence. }
      apply Qlt_div_mult in Hlt; [|exact HHq].
      assert (Hdiv : (inject_Z W / r0 <= inject_Z H)%Q).
      { apply Qle_shift_div_r; [exact Hr|]. rewrite Qmult_comm.
        apply Qlt_le_weak. exact Hlt. }
      lra. }
    lia.
  - unfold PaddingToOriginalRatioProcessor.pad_width. fold W H r0.
    cbn [bind expand2]. intros [= <-]. cbn [watermark_img update_watermark_img width height].
    fold (get_width container) (get_height container). fold W H.
    assert (Hp : Py.int (inject_Z H * r0 - inject_Z W) <= 0).
    { apply int_nonpos. unfold Py.gt in E. apply negb_false_iff in E.
      apply Qle_bool_iff in E.
      apply Qle_div_mult in E; [|exact HHq].
      rewrite Qmult_comm in E. lra. }
    lia.
Qed.

(** C3.  On the 3000 x 2200 working image of a photo shot at 3000 x 2000 (a
    band of 200 rows was added below the photo) the stage takes the height
    branch with a padding of -200 on the top and on the bottom: the output is
    3000 x 1800, of ratio 1.67 and not 1.5.  The width branch at the same
    input would give 3600 x 2200, of ratio 1.64. *)
Theorem padding_to_original_ratio_misses :
  let container := Sample.container 3000 2200 3000 2000 in
  exists out,
    PaddingToOriginalRatioProcessor.process container = Ok out
    /\ watermark_img out
       = ImageOps_expand (Raster 3000 2200) 0 (-200) 0 (-200) (ColorStr "white")
    /\ size (watermark_img out) = (3000, 1800)
    /\ Py.round2 (get_original_ratio container) = 150
    /\ Py.round2 (inject_Z (width (watermark_img out))
                  / inject_Z (height (watermark_img out))) = 167
    /\ PaddingToOriginalRatioProcessor.pad_width container (get_original_ratio container)
       = ImageOps_expand (Raster 3000 2200) 300 0 300 0 (ColorStr "white")
    /\ Py.round2 (3600 # 2200) = 164.
Proof.
  cbv zeta. eexists. split; [reflexivity|].
  repeat split.
Qed.

(** Where the computed padding is not negative it is zero and the stage
    leaves the size as it is, whatever the original ratio: the 150 x 100
    working image of a photo shot at 112 x 75 keeps the ratio 1.5, while the
    original ratio rounds to 1.49. *)
Lemma padding_to_original_ratio_zero_padding :
  let container := Sample.container 150 100 112 75 in
  exists out,
    PaddingToOriginalRatioProcessor.process container = Ok out
    /\ watermark_img out = ImageOps_expand (Raster 150 100) 0 0 0 0 (ColorStr "white")
    /\ size (watermark_img out) = (150, 100)
    /\ Py.round2 (get_original_ratio container) = 149
    /\ Py.round2 (150 # 100) = 150.
Proof.
  cbv zeta. eexists. split; [reflexivity|]. repeat split.
Qed.

(** ** Rounding of floats *)

Lemma float_scale_power (x : Q) (k : Z) : (Float.scale x k == x * 2 ^ k)%Q.
Proof.
  unfold Float.scale. destruct (0 <=? k) eqn:E.
  - apply Z.leb_le in E. rewrite Zpower_Qpower by exact E. reflexivity.
  - apply Z.leb_gt in E. rewrite Zpower_Qpower by lia.
    replace k with (- - k) at 2 by ring. rewrite (Qpower_opp 2 (- k)). reflexivity.
Qed.

Lemma Qpos_nonzero (p : Q) : (0 < p)%Q -> ~ (p == 0)%Q.
Proof.
  intros H E. rewrite E in H. discriminate H.
Qed.

Lemma power2_pos (k : Z) : (0 < 2 ^ k)%Q.
Proof.
  apply Qpower_0_lt. reflexivity.
Qed.

(** The nearest integer is within one half. *)
Lemma rne_bounds (y : Q) :
  (y - (1 # 2) <= inject_Z (Float.rne y) <= y + (1 # 2))%Q.
Proof.
  unfold Float.rne.
  pose proof (Qfloor_le y) as Hl. pose proof (Qlt_floor y) as Hu.
  rewrite inject_Z_plus in Hu. change (inject_Z 1) with 1%Q in Hu.
  set (f := Qfloor y) in *.
  destruct (y - inject_Z f ?= 1 # 2)%Q eqn:E.
  - apply Qeq_alt in E.
    destruct (Z.even f); [|rewrite inject_Z_plus; change (inject_Z 1) with 1%Q];
      split; lra.
  - apply Qlt_alt in E. split; lra.
  - apply Qgt_alt in E. rewrite inject_Z_plus. change (inject_Z 1) with 1%Q.
    split; lra.
Qed.

(** The shift brings a positive number to a significand of 53 bits. *)
Lemma shift_lower (x : Q) :
  (0 < x)%Q -> (inject_Z (2 ^ 52) <= Float.scale x (Float.shift x))%Q.
Proof.
  intros Hx. unfold Float.shift.
  set (la := Z.log2 (Qnum x)). set (lb := Z.log2 (Z.pos (Qden x))).
  set (k0 := 53 - (la - lb)).
  destruct (Qle_bool (inject_Z (2 ^ 53)) (Float.scale x k0)) eqn:E.
  - apply Qle_bool_iff in E. rewrite float_scale_power in *.
    replace (k0 - 1) with (k0 + -1) by ring.
    rewrite Qpower_plus by discriminate.
    change (2 ^ (-1))%Q with (1 # 2)%Q.
    change (inject_Z (2 ^ 53)) with (2 * inject_Z (2 ^ 52))%Q in E.
    set (p := (2 ^ k0)%Q) in *. set (c := inject_Z (2 ^ 52)) in *.
    rewrite Qmult_assoc. lra.
  - clear E. rewrite float_scale_power.
    destruct x as [a b]. unfold Qlt in Hx. simpl in Hx. rewrite Z.mul_1_r in Hx.
    cbn [Qnum Qden] in la, lb.
    assert (Ha : 2 ^ la <= a) by (apply Z.log2_spec; exact Hx).
    assert (Hb : Z.pos b < 2 ^ (lb + 1))
      by (apply (Z.log2_spec (Z.pos b)); reflexivity).
    assert (Hla : 0 <= la) by apply Z.log2_nonneg.
    assert (Hlb : 0 <= lb) by apply Z.log2_nonneg.
    assert (Hpa : (0 < 2 ^ la)%Q) by apply power2_pos.
    assert (Hpb : (0 < 2 ^ (lb + 1))%Q) by apply power2_pos.
    assert (Haq : (2 ^ la <= inject_Z a)%Q).
    { change 2%Q with (inject_Z 2). rewrite <- Zpower_Qpower by exact Hla.
      rewrite <- Zle_Qle. exact Ha. }
    assert (Hbq : (inject_Z (Z.pos b) <= 2 ^ (lb + 1))%Q).
    { change 2%Q with (inject_Z 2). rewrite <- Zpower_Qpower by lia.
      rewrite <- Zle_Qle. lia. }
    assert (Hbpos : (0 < inject_Z (Z.pos b))%Q) by reflexivity.
    replace k0 with (52 + ((lb + 1) + - la)) by (unfold k0; ring).
    rewrite (Qpower_plus 2 52 ((lb + 1) + - la)) by discriminate.
    rewrite (Qpower_plus 2 (lb + 1) (- la)) by discriminate. rewrite Qpower_opp.
    rewrite (Qmake_Qdiv a b).
    change (inject_Z (2 ^ 52)) with (2 ^ 52)%Q.
    set (A := inject_Z a) in *. set (B := inject_Z (Z.pos b)) in *.
    set (PA := (2 ^ la)%Q) in *. set (PB := (2 ^ (lb + 1))%Q) in *.
    set (t := (A * PB / (B * PA))%Q).
    assert (Ht : (1 <= t)%Q).
    { apply Qle_shift_div_l.
      - apply Qmult_lt_0_compat; assumption.
      - rewrite Qmult_1_l. rewrite (Qmult_comm B PA).
        apply Qmult_le_compat_nonneg; split; lra. }
    assert (Eq1 : (A / B * (2 ^ 52 * (PB * / PA)) == 2 ^ 52 * t)%Q).
    { unfold t. field. split; apply Qpos_nonzero; assumption. }
    rewrite Eq1. set (c := (2 ^ 52)%Q). assert (0 < c)%Q by reflexivity. nra.
Qed.

Lemma shift_upper (x : Q) :
  (0 < x)%Q -> (Float.scale x (Float.shift x) < inject_Z (2 ^ 53))%Q.
Proof.
  intros Hx. unfold Float.shift.
  set (la := Z.log2 (Qnum x)). set (lb := Z.log2 (Z.pos (Qden x))).
  set (k0 := 53 - (la - lb)).
  destruct (Qle_bool (inject_Z (2 ^ 53)) (Float.scale x k0)) eqn:E.
  - clear E. rewrite float_scale_power.
    destruct x as [a b]. unfold Qlt in Hx. simpl in Hx. rewrite Z.mul_1_r in Hx.
    cbn [Qnum Qden] in la, lb.
    assert (Ha : a < 2 ^ (la + 1)) by (apply Z.log2_spec; exact Hx).
    assert (Hb : 2 ^ lb <= Z.pos b)
      by (apply (Z.log2_spec (Z.pos b)); reflexivity).
    assert (Hla : 0 <= la) by apply Z.log2_nonneg.
    assert (Hlb : 0 <= lb) by apply Z.log2_nonneg.
    assert (Hpa : (0 < 2 ^ (la + 1))%Q) by apply power2_pos.
    assert (Hpb : (0 < 2 ^ lb)%Q) by apply power2_pos.
    assert (Haq : (inject_Z a < 2 ^ (la + 1))%Q).
    { change 2%Q with (inject_Z 2). rewrite <- Zpower_Qpower by lia.
      rewrite <- Zlt_Qlt. exact Ha. }
    assert (Hbq : (2 ^ lb <= inject_Z (Z.pos b))%Q).
    { change 2%Q with (inject_Z 2). rewrite <- Zpower_Qpower by lia.
      rewrite <- Zle_Qle. lia. }
    assert (Hbpos : (0 < inject_Z (Z.pos b))%Q) by reflexivity.
    assert (Hapos : (0 < inject_Z a)%Q)
      by (change 0%Q with (inject_Z 0); rewrite <- Zlt_Qlt; exact Hx).
    replace (k0 - 1) with (53 + (lb + - (la + 1))) by (unfold k0; ring).
    rewrite (Qpower_plus 2 53 (lb + - (la + 1))) by discriminate.
    rewrite (Qpower_plus 2 lb (- (la + 1))) by discriminate. rewrite Qpower_opp.
    rewrite (Qmake_Qdiv a b).
    change (inject_Z (2 ^ 53)) with (2 ^ 53)%Q.
    set (A := inject_Z a) in *. set (B := inject_Z (Z.pos b)) in *.
    set (PA := (2 ^ (la + 1))%Q) in *. set (PB := (2 ^ lb)%Q) in *.
    set (t := (A * PB / (B * PA))%Q).
    assert (Ht : (t < 1)%Q).
    { apply Qlt_shift_div_r.
      - apply Qmult_lt_0_compat; assumption.
      - rewrite Qmult_1_l. apply Qle_lt_trans with (A * B)%Q.
        + rewrite !(Qmult_comm A). apply Qmult_le_compat_r; lra.
        + rewrite (Qmult_comm B PA). apply Qmult_lt_compat_r; assumption. }
    assert (Eq1 : (A / B * (2 ^ 53 * (PB * / PA)) == 2 ^ 53 * t)%Q).
    { unfold t. field. split; apply Qpos_nonzero; assumption. }
    rewrite Eq1. set (c := (2 ^ 53)%Q). assert (0 < c)%Q by reflexivity. nra.
  - apply Qnot_le_lt. intros H. apply Qle_bool_iff in H. congruence.
Qed.

(** Rounding a positive number moves it up by at most the unit roundoff. *)
Lemma round_pos_bounds (x : Q) :
  (0 < x)%Q -> (0 <= Float.round_pos x <= x * (1 + Float.u))%Q.
Proof.
  intros Hx. unfold Float.round_pos.
  pose proof (shift_lower x Hx) as Hlow.
  set (k := Float.shift x) in *.
  pose proof (rne_bounds (Float.scale x k)) as [Hn1 Hn2].
  set (n := inject_Z (Float.rne (Float.scale x k))) in *.
  rewrite float_scale_power in *.
  rewrite Qpower_opp.
  pose proof (power2_pos k) as HP. set (P := (2 ^ k)%Q) in *.
  change (inject_Z (2 ^ 52)) with 4503599627370496%Q in Hlow.
  assert (Hinv : (0 < / P)%Q) by (apply Qinv_lt_0_compat; exact HP).
  clearbody n P.
  assert (Hn0 : (0 <= n)%Q) by lra.
  set (y := (x * P)%Q) in *.
  assert (Hnu : (n <= y * (1 + Float.u))%Q) by (unfold Float.u; clearbody y; lra).
  split.
  - apply Qmult_le_0_compat; lra.
  - apply Qle_trans with (y * (1 + Float.u) * / P)%Q.
    + apply Qmult_le_compat_r; lra.
    + unfold y. apply Qle_lteq. right. field. apply Qpos_nonzero; exact HP.
Qed.

Lemma float_round_bounds (x : Q) :
  (0 <= x)%Q -> (0 <= Float.round x <= x * (1 + Float.u))%Q.
Proof.
  intros Hx. unfold Float.round. destruct x as [a b]. simpl.
  destruct a as [|a|a].
  - split; [apply Qle_refl|]. unfold Qle. simpl. lia.
  - apply round_pos_bounds. reflexivity.
  - exfalso. unfold Qle in Hx. simpl in Hx. lia.
Qed.

Lemma float_mul_bounds (x s : Q) :
  (0 <= x)%Q -> (0 <= s)%Q ->
  (0 <= Float.mul x s <= x * s * (1 + Float.u))%Q.
Proof.
  intros Hx Hs. unfold Float.mul. apply float_round_bounds.
  apply Qmult_le_0_compat; assumption.
Qed.

Lemma int_lt_bound (x : Q) (k : Z) :
  (0 <= x)%Q -> (x < inject_Z k + 1)%Q -> Py.int x <= k.
Proof.
  intros H0 Hk. rewrite int_nonneg by exact H0.
  pose proof (Qfloor_le x) as Hf.
  assert (Hlt : (inject_Z (Qfloor x) < inject_Z (k + 1))%Q)
    by (rewrite inject_Z_plus; change (inject_Z 1) with 1%Q; lra).
  rewrite <- Zlt_Qlt in Hlt. lia.
Qed.

(** ** Text scaling in the blurred background with parameters *)

Lemma inject_Z_nonneg (n : Z) : 0 <= n -> (0 <= inject_Z n)%Q.
Proof.
  intros H. change 0%Q with (inject_Z 0). rewrite <- Zle_Qle. exact H.
Qed.

Lemma inject_Z_pos (n : Z) : 0 < n -> (0 < inject_Z n)%Q.
Proof.
  intros H. change 0%Q with (inject_Z 0). rewrite <- Zlt_Qlt. exact H.
Qed.

Lemma int_le_self (x : Q) : (0 <= x)%Q -> (inject_Z (Py.int x) <= x)%Q.
Proof.
  intros H. rewrite int_nonneg by exact H. apply Qfloor_le.
Qed.

Lemma py_min_le_l (a b : Q) : (Py.min a b <= a)%Q.
Proof.
  unfold Py.min, Py.gt. destruct (Qle_bool a b) eqn:E; cbn [negb].
  - apply Qle_refl.
  - apply Qlt_le_weak, Qnot_le_lt. intros H. apply Qle_bool_iff in H. congruence.
Qed.

Lemma py_min_le_r (a b : Q) : (Py.min a b <= b)%Q.
Proof.
  unfold Py.min, Py.gt. destruct (Qle_bool a b) eqn:E; cbn [negb].
  - apply Qle_bool_iff. exact E.
  - apply Qle_refl.
Qed.

Lemma py_min_nonneg (a b : Q) : (0 <= a)%Q -> (0 <= b)%Q -> (0 <= Py.min a b)%Q.
Proof.
  intros Ha Hb. unfold Py.min. destruct (Py.gt a b); assumption.
Qed.

Lemma Qdiv_nonneg (a b : Q) : (0 <= a)%Q -> (0 < b)%Q -> (0 <= a / b)%Q.
Proof.
  intros Ha Hb. apply Qle_shift_div_l; [exact Hb|]. rewrite Qmult_0_l. exact Ha.
Qed.

(** The two sizes the stage derives from the working image. *)
Lemma params_area_height_floor (container : ImageContainer) :
  0 <= get_height container ->
  BackgroundBlurWithParamsProcessor.params_area_height container
  = get_height container * 8 / 100.
Proof.
  intros H. apply int_scale; lia.
Qed.

Lemma max_text_width_floor (container : ImageContainer) :
  0 <= get_width container ->
  BackgroundBlurWithParamsProcessor.max_text_width container
  = get_width container * 75 / 100.
Proof.
  intros H. apply int_scale; lia.
Qed.

(** What a bitmap is after lines 476-484 when the resize is accepted. *)
Lemma scaled_returns (image m : Image) (s : Q) :
  BackgroundBlurWithParamsProcessor.scaled image s = Ok m ->
  (height image <= 0 /\ m = image)
  \/ (0 < height image
      /\ m = Image_resize image
               (Py.int (Float.mul (inject_Z (width image)) s))
               (Py.int (Float.mul (inject_Z (height image)) s))
      /\ 1 <= Py.int (Float.mul (inject_Z (width image)) s)
      /\ 1 <= Py.int (Float.mul (inject_Z (height image)) s)).
Proof.
  unfold BackgroundBlurWithParamsProcessor.scaled.
  destruct (0 <? height image) eqn:E.
  - apply Z.ltb_lt in E. intros H. apply resize_returns in H.
    right. split; [exact E | exact H].
  - apply Z.ltb_ge in E. intros [= <-]. left. split; [exact E | reflexivity].
Qed.

Lemma scale_text_images_returns (band budget total : Z)
    (model_image param_image m p : Image) :
  0 < total ->
  BackgroundBlurWithParamsProcessor.scale_text_images band budget total
    model_image param_image = Ok (m, p) ->
  exists s,
    BackgroundBlurWithParamsProcessor.scale_factor band budget total
      model_image param_image = Ok s
    /\ BackgroundBlurWithParamsProcessor.scaled model_image s = Ok m
    /\ BackgroundBlurWithParamsProcessor.scaled param_image s = Ok p.
Proof.
  intros Htotal. unfold BackgroundBlurWithParamsProcessor.scale_text_images.
  pose proof Htotal as Hb. apply Z.ltb_lt in Hb. rewrite Hb.
  rewrite scale_factor_positive_height by exact Htotal. cbn [bind].
  match goal with
  | |- context [BackgroundBlurWithParamsProcessor.scaled model_image ?f] =>
      set (s := f)
  end.
  destruct (BackgroundBlurWithParamsProcessor.scaled model_image s) as [m'|e] eqn:Em;
    cbn [bind]; [|discriminate].
  destruct (BackgroundBlurWithParamsProcessor.scaled param_image s) as [p'|e] eqn:Ep;
    cbn [bind]; [|discriminate].
  intros [= <- <-]. exists s.
  split; [reflexivity | split; assumption].
Qed.

(** The factor is not negative and not above either scale as rounded. *)
Lemma scale_factor_bounds (band budget total : Z) (model_image param_image : Image)
    (s : Q) :
  0 <= band -> 0 <= budget -> 0 < total ->
  BackgroundBlurWithParamsProcessor.scale_factor band budget total
    model_image param_image = Ok s ->
  let widest := Z.max (width model_image) (width param_image) in
  (0 <= s)%Q
  /\ (s <= Float.round (inject_Z band / inject_Z total))%Q
  /\ (s <= if 0 <? widest
           then Float.round (inject_Z budget / inject_Z widest) else 1)%Q.
Proof.
  intros Hband Hbudget Htotal Hs widest.
  rewrite scale_factor_positive_height in Hs by exact Htotal.
  cbv zeta in Hs. fold widest in Hs. injection Hs as <-.
  split; [|split; [apply py_min_le_l | apply py_min_le_r]].
  apply py_min_nonneg.
  - apply float_round_bounds, Qdiv_nonneg;
      [apply inject_Z_nonneg; exact Hband | apply inject_Z_pos; exact Htotal].
  - destruct (0 <? widest) eqn:E; [|discriminate].
    apply Z.ltb_lt in E.
    apply float_round_bounds, Qdiv_nonneg;
      [apply inject_Z_nonneg; exact Hbudget | apply inject_Z_pos; exact E].
Qed.

(** Two roundings apart from the exact product with the exact quotient. *)
Lemma float_scaled_le (n : Z) (s q : Q) :
  0 <= n -> (0 <= s)%Q -> (0 <= q)%Q -> (s <= Float.round q)%Q ->
  (0 <= Float.mul (inject_Z n) s
   <= inject_Z n * q * ((1 + Float.u) * (1 + Float.u)))%Q.
Proof.
  intros Hn Hs Hq Hsq.
  assert (Hnq := inject_Z_nonneg n Hn).
  destruct (float_mul_bounds (inject_Z n) s Hnq Hs) as [H0 H1].
  destruct (float_round_bounds q Hq) as [_ Hr].
  split; [exact H0|].
  assert (H2 : (inject_Z n * s <= inject_Z n * (q * (1 + Float.u)))%Q).
  { rewrite !(Qmult_comm (inject_Z n)). apply Qmult_le_compat_r; [|exact Hnq].
    apply Qle_trans with (Float.round q); assumption. }
  apply Qle_trans with (inject_Z n * s * (1 + Float.u))%Q; [exact H1|].
  apply Qle_trans with (inject_Z n * (q * (1 + Float.u)) * (1 + Float.u))%Q.
  - apply Qmult_le_compat_r; [exact H2 | unfold Float.u; lra].
  - apply Qle_lteq. right. ring.
Qed.

(** A resized bitmap is within the width budget. *)
Lemma scaled_width_le (image m : Image) (s : Q) (widest budget : Z) :
  BackgroundBlurWithParamsProcessor.scaled image s = Ok m ->
  0 < height image ->
  0 <= width image -> width image <= widest ->
  0 <= budget -> budget <= 2 ^ 50 ->
  (0 <= s)%Q ->
  (s <= if 0 <? widest
        then Float.round (inject_Z budget / inject_Z widest) else 1)%Q ->
  1 <= width m <= budget.
Proof.
  intros Hm Hpos Hw Hle Hb Hb50 Hs Hws.
  destruct (scaled_returns image m s Hm) as [[Hz _]|(_ & -> & Hw1 & _)]; [lia|].
  cbn [width]. split; [exact Hw1|].
  assert (Hbq := inject_Z_nonneg budget Hb).
  assert (Hb50q : (inject_Z budget <= 1125899906842624)%Q)
    by (change 1125899906842624%Q with (inject_Z (2 ^ 50)); rewrite <- Zle_Qle;
        exact Hb50).
  destruct (0 <? widest) eqn:E.
  - apply Z.ltb_lt in E. assert (Hpos' := inject_Z_pos widest E).
    assert (Hcancel := Qdiv_cancel (inject_Z budget) (inject_Z widest) Hpos').
    set (q := (inject_Z budget / inject_Z widest)%Q) in *.
    assert (Hq : (0 <= q)%Q) by (apply Qdiv_nonneg; assumption).
    destruct (float_scaled_le (width image) s q Hw Hs Hq Hws) as [H0 H1].
    apply int_lt_bound; [exact H0|].
    assert (Hwq : (inject_Z (width image) * q <= inject_Z budget)%Q).
    { apply Qle_trans with (inject_Z widest * q)%Q.
      - apply Qmult_le_compat_r; [rewrite <- Zle_Qle; exact Hle | exact Hq].
      - rewrite Hcancel at 1. rewrite Qmult_comm. apply Qle_refl. }
    set (x := Float.mul (inject_Z (width image)) s) in *.
    set (wq := (inject_Z (width image) * q)%Q) in *.
    set (b := inject_Z budget) in *.
    clearbody x wq b. unfold Float.u in H1. lra.
  - apply Z.ltb_ge in E. replace (width image) with 0 by lia.
    destruct (float_mul_bounds (inject_Z 0) s ltac:(apply Qle_refl) Hs) as [H0 H1].
    apply int_lt_bound; [exact H0|].
    change (inject_Z 0) with 0%Q in *. rewrite !Qmult_0_l in H1.
    set (x := Float.mul 0 s) in *. set (b := inject_Z budget) in *.
    clearbody x b. lra.
Qed.

(** The height of a bitmap after lines 476-484. *)
Lemma scaled_height_le (image m : Image) (s q : Q) :
  BackgroundBlurWithParamsProcessor.scaled image s = Ok m ->
  0 <= height image -> (0 <= s)%Q -> (0 <= q)%Q -> (s <= Float.round q)%Q ->
  (inject_Z (height m)
   <= inject_Z (height image) * q * ((1 + Float.u) * (1 + Float.u)))%Q.
Proof.
  intros Hm Hh Hs Hq Hsq.
  destruct (float_scaled_le (height image) s q Hh Hs Hq Hsq) as [H0 H1].
  destruct (scaled_returns image m s Hm) as [[Hz ->]|(_ & -> & _ & _)].
  - replace (height image) with 0 by lia.
    change (inject_Z 0) with 0%Q. rewrite !Qmult_0_l. apply Qle_refl.
  - cbn [height]. apply Qle_trans with (Float.mul (inject_Z (height image)) s).
    + apply int_le_self. exact H0.
    + exact H1.
Qed.

Lemma sample_raster_nonneg (content : string) (font bold_font : Font)
    (is_bold : bool) (fill : Color) :
  0 <= width (Sample.text_to_image content font bold_font is_bold fill)
  /\ 0 <= height (Sample.text_to_image content font bold_font is_bold fill).
Proof.
  unfold Sample.text_to_image. destruct is_bold; cbn [width height]; lia.
Qed.

(** C4.  The source comments of lines 460 and 472 count the gap in the text
    height that must fit the caption band, but only the two bitmaps are
    scaled.  On the 1500 x 1000 photo the texts are rendered as 400 x 100 and
    1080 x 90; the band has 80 rows and the width budget is 1125 columns;
    the factor is the height-driven scale, the float nearest to 2/5, below
    the width-driven scale; the texts become 160 x 40 and 432 x 36, within
    the width budget, and with the gap of 10 pixels the stack has 86 rows,
    6 more than the band. *)
Theorem text_stack_exceeds_band :
  let config := Sample.config true true None 5 0 in
  let container := Sample.container 1500 1000 1500 1000 in
  let model_image :=
    BackgroundBlurWithParamsProcessor.rendered_model Sample.text_to_image
      config container in
  let param_image :=
    BackgroundBlurWithParamsProcessor.rendered_param Sample.text_to_image
      config container in
  let band := BackgroundBlurWithParamsProcessor.params_area_height container in
  let budget := BackgroundBlurWithParamsProcessor.max_text_width container in
  let scaled_model := Image_resize (Raster 400 100) 160 40 in
  let scaled_param := Image_resize (Raster 1080 90) 432 36 in
  size model_image = (400, 100)
  /\ size param_image = (1080, 90)
  /\ band = 80
  /\ budget = 1125
  /\ BackgroundBlurWithParamsProcessor.scale_factor band budget
       (height model_image + height param_image + 10) model_image param_image
     = Ok (Float.round (2 # 5))
  /\ Py.min (Float.round (80 # 200)) (Float.round (1125 # 1080))
     = Float.round (2 # 5)
  /\ BackgroundBlurWithParamsProcessor.text_images Sample.text_to_image config container
     = Ok (scaled_model, scaled_param)
  /\ width scaled_model <= budget
  /\ width scaled_param <= budget
  /\ height scaled_model + height scaled_param + 10 = 86
  /\ band < height scaled_model + height scaled_param + 10.
Proof.
  cbv zeta. repeat split; vm_compute; congruence.
Qed.

(** The guard on the height of a bitmap: on a working image 100 pixels wide
    a blank model name (150 x 0) is left as rendered, wider than the budget
    of 75 pixels, while the parameters are resized to 75 x 6. *)
Lemma zero_height_bitmap_left_unscaled :
  let config := Sample.config true true None 5 0 in
  let container := Sample.container 100 1000 100 1000 in
  BackgroundBlurWithParamsProcessor.text_images Sample.blank_bold_text_to_image
    config container
  = Ok (Raster 150 0, Image_resize (Raster 1080 90) 75 6)
  /\ BackgroundBlurWithParamsProcessor.max_text_width container = 75.
Proof.
  cbv zeta. split; vm_compute; reflexivity.
Qed.

(** The products are rounded as floats: on the 1500 x 370 photo the band has
    29 rows and the factor is the float nearest to 29/200; the product with
    the 400 columns of the model name is the float just below 58, and the
    bitmap becomes 57 columns wide. *)
Lemma scaled_width_rounds_as_float :
  let config := Sample.config true true None 5 0 in
  let container := Sample.container 1500 370 1500 370 in
  BackgroundBlurWithParamsProcessor.params_area_height container = 29
  /\ BackgroundBlurWithParamsProcessor.text_images Sample.text_to_image config container
     = Ok (Image_resize (Raster 400 100) 57 14, Image_resize (Raster 1080 90) 156 13)
  /\ (Float.mul 400 (Float.round (29 # 200)) < 58)%Q
  /\ Py.int (400 * (29 # 200)) = 58.
Proof.
  cbv zeta. repeat split; vm_compute; reflexivity.
Qed.

(** ** Text placement in the blurred background with parameters *)

Lemma floor_half_centred (free : Z) :
  free / 2 <= free - free / 2 <= free / 2 + 1.
Proof.
  pose proof (Z.div_mod free 2 ltac:(lia)) as E.
  pose proof (Z.mod_pos_bound free 2 ltac:(lia)) as B.
  lia.
Qed.

(** The stage returns when the canvas is at least 1 x 1 and the two texts
    are scaled without a refused resize. *)
Lemma params_process_returns
    (text_to_image : string -> Font -> Font -> bool -> Color -> Image)
    (add_rounded_corners : Image -> Z -> Image)
    (add_soft_shadow : Image -> Z -> Z * Z -> Z -> Image)
    (config : Config.t) (container : ImageContainer) (texts : Image * Image) :
  1 <= BackgroundBlurWithParamsProcessor.final_width container ->
  1 <= BackgroundBlurWithParamsProcessor.final_height container ->
  BackgroundBlurWithParamsProcessor.text_images text_to_image config container
  = Ok texts ->
  exists out,
    BackgroundBlurWithParamsProcessor.process text_to_image add_rounded_corners
      add_soft_shadow config container = Ok out.
Proof.
  intros Hw Hh Ht. unfold BackgroundBlurWithParamsProcessor.process.
  rewrite resize_ok by assumption. cbn [bind]. rewrite Ht. cbn [bind].
  eexists. reflexivity.
Qed.

(** What the stage has done when it returns: the canvas was resized and the
    two texts were scaled. *)
Lemma params_process_inversion
    (text_to_image : string -> Font -> Font -> bool -> Color -> Image)
    (add_rounded_corners : Image -> Z -> Image)
    (add_soft_shadow : Image -> Z -> Z * Z -> Z -> Image)
    (config : Config.t) (container : ImageContainer) (out : ImageContainer) :
  BackgroundBlurWithParamsProcessor.process text_to_image add_rounded_corners
    add_soft_shadow config container = Ok out ->
  exists model_image param_image,
    1 <= BackgroundBlurWithParamsProcessor.final_width container
    /\ 1 <= BackgroundBlurWithParamsProcessor.final_height container
    /\ BackgroundBlurWithParamsProcessor.text_images text_to_image config container
       = Ok (model_image, param_image)
    /\ BackgroundBlurWithParamsProcessor.process text_to_image add_rounded_corners
         add_soft_shadow config container
       = (let enlarged_img :=
            Image_resize (get_watermark_img container)
              (BackgroundBlurWithParamsProcessor.final_width container)
              (BackgroundBlurWithParamsProcessor.final_height container) in
          let background :=
            Image_filter_GaussianBlur enlarged_img GAUSSIAN_KERNEL_RADIUS in
          let fg :=
            Image_new "RGB" (width background) (height background)
              (ColorRGB 255 255 255) in
          let background := Image_blend background fg (1 # 10) in
          let at_ :=
            BackgroundBlurWithParamsProcessor.text_placement container
              model_image param_image in
          let background :=
            Image_paste_mask background model_image
              (BackgroundBlurWithParamsProcessor.model_x at_)
              (BackgroundBlurWithParamsProcessor.model_y at_) model_image in
          let background :=
            Image_paste_mask background param_image
              (BackgroundBlurWithParamsProcessor.param_x at_)
              (BackgroundBlurWithParamsProcessor.param_y at_) param_image in
          let shadow_img :=
            add_soft_shadow
              (add_rounded_corners (get_watermark_img container)
                 (Py.int (inject_Z (get_width container) * (1 # 100))))
              15 (5, 5) 128 in
          let original_x :=
            Py.int (inject_Z (get_width container)
                    * PADDING_PERCENT_IN_BACKGROUND / 2) - 15 + 5 in
          let original_y :=
            Py.int (inject_Z (get_height container)
                    * PADDING_PERCENT_IN_BACKGROUND / 2)
            - BackgroundBlurWithParamsProcessor.top_padding container - 15 + 5 in
          Ok (update_watermark_img container
                (Image_paste_mask background shadow_img original_x original_y
                   shadow_img))).
Proof.
  unfold BackgroundBlurWithParamsProcessor.process.
  destruct (resize (get_watermark_img container)
              (BackgroundBlurWithParamsProcessor.final_width container)
              (BackgroundBlurWithParamsProcessor.final_height container))
    as [enlarged|e] eqn:Er; cbn [bind]; [|discriminate].
  apply resize_returns in Er. destruct Er as (-> & Hw & Hh).
  destruct (BackgroundBlurWithParamsProcessor.text_images text_to_image config container)
    as [[model_image param_image]|e] eqn:Et; cbn [bind]; [|discriminate].
  intros _. exists model_image, param_image.
  repeat split; try assumption.
Qed.

(** C5, as amended.  Whenever the stage returns, it has pasted the two scaled
    text bitmaps on the enlarged canvas, each horizontally centred (the left
    margin is half of the free width, rounded down), the model name at the
    row that centres the stack of the two texts and the gap of 10 pixels in
    the caption band at the bottom of the canvas, moved up by [top_padding].
    The stage returns when the canvas is at least 1 x 1 and the two texts are
    scaled without a refused resize. *)
Theorem text_placement_centred
    (text_to_image : string -> Font -> Font -> bool -> Color -> Image)
    (add_rounded_corners : Image -> Z -> Image)
    (add_soft_shadow : Image -> Z -> Z * Z -> Z -> Image)
    (config : Config.t) (container : ImageContainer) :
  let final_width := BackgroundBlurWithParamsProcessor.final_width container in
  let final_height := BackgroundBlurWithParamsProcessor.final_height container in
  let band := BackgroundBlurWithParamsProcessor.params_area_height container in
  (forall out,
     BackgroundBlurWithParamsProcessor.process text_to_image add_rounded_corners
       add_soft_shadow config container = Ok out ->
     exists model_image param_image canvas shadow original_x original_y,
       BackgroundBlurWithParamsProcessor.text_images text_to_image config container
       = Ok (model_image, param_image)
       /\ let at_ :=
            BackgroundBlurWithParamsProcessor.text_placement container
              model_image param_image in
          let model_x := BackgroundBlurWithParamsProcessor.model_x at_ in
          let model_y := BackgroundBlurWithParamsProcessor.model_y at_ in
          let param_x := BackgroundBlurWithParamsProcessor.param_x at_ in
          let param_y := BackgroundBlurWithParamsProcessor.param_y at_ in
          watermark_img out
          = Image_paste_mask
              (Image_paste_mask
                 (Image_paste_mask canvas model_image model_x model_y model_image)
                 param_image param_x param_y param_image)
              shadow original_x original_y shadow
          /\ size canvas = (final_width, final_height)
          /\ 1 <= final_width /\ 1 <= final_height
          /\ model_x = (final_width - width model_image) / 2
          /\ param_x = (final_width - width param_image) / 2
          /\ model_x <= final_width - width model_image - model_x <= model_x + 1
          /\ param_x <= final_width - width param_image - param_x <= param_x + 1
          /\ model_y
             = final_height - band
               + (band - (height model_image + height param_image + 10)) / 2
               - BackgroundBlurWithParamsProcessor.top_padding container)
  /\ (1 <= final_width -> 1 <= final_height ->
      forall texts,
        BackgroundBlurWithParamsProcessor.text_images text_to_image config container
        = Ok texts ->
        exists out,
          BackgroundBlurWithParamsProcessor.process text_to_image add_rounded_corners
            add_soft_shadow config container = Ok out).
Proof.
  intros final_width final_height band. split.
  - intros out Hout.
    destruct (params_process_inversion text_to_image add_rounded_corners
                add_soft_shadow config container out Hout)
      as (model_image & param_image & Hw & Hh & Ht & Hp).
    rewrite Hp in Hout. cbv zeta in Hout. injection Hout as <-.
    exists model_image, param_image.
    do 4 eexists. split; [exact Ht|].
    cbn [watermark_img update_watermark_img
         BackgroundBlurWithParamsProcessor.text_placement
         BackgroundBlurWithParamsProcessor.model_x
         BackgroundBlurWithParamsProcessor.model_y
         BackgroundBlurWithParamsProcessor.param_x
         BackgroundBlurWithParamsProcessor.param_y].
    fold final_width final_height band.
    split; [reflexivity|]. split; [reflexivity|].
    split; [exact Hw|]. split; [exact Hh|].
    split; [reflexivity|]. split; [reflexivity|].
    split; [apply floor_half_centred|].
    split; [apply floor_half_centred | reflexivity].
  - intros Hw Hh texts Ht.
    apply (params_process_returns _ _ _ _ _ texts); assumption.
Qed.

(** The 4000 x 3000 photo: the stage returns, with the model name (480
    columns) at column 2120 of the 4720 and the parameters (1296 columns) at
    column 1712. *)
Lemma text_placement_centred_witness :
  let config := Sample.config true true None 5 0 in
  let container := Sample.container 4000 3000 4000 3000 in
  exists out model_image param_image,
    BackgroundBlurWithParamsProcessor.process Sample.text_to_image
      SampleUtils.add_rounded_corners SampleUtils.add_soft_shadow config container
    = Ok out
    /\ BackgroundBlurWithParamsProcessor.text_images Sample.text_to_image
         config container
       = Ok (model_image, param_image)
    /\ BackgroundBlurWithParamsProcessor.model_x
         (BackgroundBlurWithParamsProcessor.text_placement container
            model_image param_image)
       = (BackgroundBlurWithParamsProcessor.final_width container
          - width model_image) / 2.
Proof.
  intros config container.
  destruct (text_placement_centred Sample.text_to_image
              SampleUtils.add_rounded_corners SampleUtils.add_soft_shadow
              config container) as [Hplaced Hreturns].
  destruct (Hreturns ltac:(vm_compute; discriminate) ltac:(vm_compute; discriminate)
              (Image_resize (Raster 400 100) 480 120,
               Image_resize (Raster 1080 90) 1296 108)
              ltac:(vm_compute; reflexivity)) as (out & Hout).
  destruct (Hplaced out Hout)
    as (model_image & param_image & canvas & shadow & x & y & Ht & _ & _ & _ & _
        & Hx & _).
  exists out, model_image, param_image.
  split; [exact Hout|]. split; [exact Ht | exact Hx].
Defined.

(** C5, as stated, fails on the 4000 x 3000 photo.  The canvas has 3780 rows
    and the caption band starts at row 3540; the model name (480 x 120) is
    pasted at row 3487, above the band, and the parameters (1296 x 108) at
    row 3377, above the model name instead of 10 pixels below it. *)
Lemma text_placement_counterexample :
  let config := Sample.config true true None 5 0 in
  let container := Sample.container 4000 3000 4000 3000 in
  let model_image := Image_resize (Raster 400 100) 480 120 in
  let param_image := Image_resize (Raster 1080 90) 1296 108 in
  let at_ :=
    BackgroundBlurWithParamsProcessor.text_placement container model_image param_image in
  BackgroundBlurWithParamsProcessor.text_images Sample.text_to_image config container
  = Ok (model_image, param_image)
  /\ (exists out,
        BackgroundBlurWithParamsProcessor.process Sample.text_to_image
          SampleUtils.add_rounded_corners SampleUtils.add_soft_shadow config container
        = Ok out)
  /\ BackgroundBlurWithParamsProcessor.final_height container
     - BackgroundBlurWithParamsProcessor.params_area_height container = 3540
  /\ at_ = {| BackgroundBlurWithParamsProcessor.model_x := 2120;
              BackgroundBlurWithParamsProcessor.model_y := 3487;
              BackgroundBlurWithParamsProcessor.param_x := 1712;
              BackgroundBlurWithParamsProcessor.param_y := 3377 |}
  /\ BackgroundBlurWithParamsProcessor.param_y at_
     <> BackgroundBlurWithParamsProcessor.model_y at_ + height model_image + 10
  /\ BackgroundBlurWithParamsProcessor.param_y at_
     < BackgroundBlurWithParamsProcessor.model_y at_
  /\ BackgroundBlurWithParamsProcessor.model_y at_
     < BackgroundBlurWithParamsProcessor.final_height container
       - BackgroundBlurWithParamsProcessor.params_area_height container.
Proof.
  cbv zeta.
  split; [vm_compute; reflexivity|].
  split; [eexists; vm_compute; reflexivity|].
  repeat split; vm_compute; congruence.
Qed.

(** * Further properties of the stages *)

(** ** The chain *)

(** Induction on components, with the components of a chain covered. *)
Lemma Component_induction (P : ProcessorChain.Component -> Prop) :
  (forall c, match c with ProcessorChain.Chain _ => True | _ => P c end) ->
  (forall components, Forall P components -> P (ProcessorChain.Chain components)) ->
  forall c, P c.
Proof.
  intros Hleaf Hchain.
  exact (fix induction (c : ProcessorChain.Component) : P c :=
           match c with
           | ProcessorChain.Chain components =>
               Hchain components
                 ((fix all (l : list ProcessorChain.Component) : Forall P l :=
                     match l with
                     | [] => Forall_nil P
                     | x :: rest => Forall_cons x (induction x) (all rest)
                     end) components)
           | c' => Hleaf c'
           end).
Qed.

Lemma same_settings_refl (a : Config.t) : ProcessorChain.same_settings a a.
Proof.
  destruct a. reflexivity.
Qed.

Lemma same_settings_trans (a b c : Config.t) :
  ProcessorChain.same_settings a b -> ProcessorChain.same_settings b c ->
  ProcessorChain.same_settings a c.
Proof.
  unfold ProcessorChain.same_settings. intros Hab Hbc.
  rewrite <- Hab in Hbc. exact Hbc.
Qed.

Lemma same_photo_refl (a : ImageContainer) : ProcessorChain.same_photo a a.
Proof.
  repeat split.
Qed.

Lemma same_photo_trans (a b c : ImageContainer) :
  ProcessorChain.same_photo a b -> ProcessorChain.same_photo b c ->
  ProcessorChain.same_photo a c.
Proof.
  unfold ProcessorChain.same_photo.
  intros (H1 & H2 & H3 & H4 & H5 & H6) (K1 & K2 & K3 & K4 & K5 & K6).
  repeat split; congruence.
Qed.

Lemma same_photo_update (c : ImageContainer) (im : Image) :
  ProcessorChain.same_photo c (update_watermark_img c im).
Proof.
  repeat split.
Qed.

Section Chain.

Variable text_to_image : string -> Font -> Font -> bool -> Color -> Image.
Variable add_rounded_corners : Image -> Z -> Image.
Variable add_soft_shadow : Image -> Z -> Z * Z -> Z -> Image.
Variable square_image : Image -> Image.
Variable merge_images : list Image -> Z -> Z -> Image.
Variable resize_image_with_height : Image -> Z -> Image.
Variable get_alternative_font : Config.t -> Font.
Variable get_alternative_bold_font : Config.t -> Font.

Let process :=
  ProcessorChain.process text_to_image add_rounded_corners add_soft_shadow
    square_image merge_images resize_image_with_height get_alternative_font
    get_alternative_bold_font.

Let run :=
  ProcessorChain.run text_to_image add_rounded_corners add_soft_shadow
    square_image merge_images resize_image_with_height get_alternative_font
    get_alternative_bold_font.

Lemma process_chain_run (components : list ProcessorChain.Component)
    (s : ProcessorChain.State) :
  process (ProcessorChain.Chain components) s = run components s.
Proof.
  revert s. induction components as [|c rest IH]; intros s; [reflexivity|].
  change (process (ProcessorChain.Chain (c :: rest)) s)
    with (s' <- process c s ;; process (ProcessorChain.Chain rest) s').
  change (run (c :: rest) s) with (s' <- process c s ;; run rest s').
  destruct (process c s) as [s'|e]; cbn [bind]; [apply IH | reflexivity].
Qed.

Lemma run_app (xs ys : list ProcessorChain.Component) (s : ProcessorChain.State) :
  run (xs ++ ys) s = (s' <- run xs s ;; run ys s').
Proof.
  revert s. induction xs as [|c rest IH]; intros s; [reflexivity|].
  change (run ((c :: rest) ++ ys) s) with (s' <- process c s ;; run (rest ++ ys) s').
  change (run (c :: rest) s) with (s' <- process c s ;; run rest s').
  destruct (process c s) as [s'|e]; cbn [bind]; [apply IH | reflexivity].
Qed.

(** X1.  A chain runs its components in the order of insertion: the chain of
    [xs] followed by [ys] is the chain of [xs] and then, on its result, the
    chain of [ys]; a component added with [add] runs last, on the result of
    the components added before it. *)
Theorem chain_runs_in_order (xs ys : list ProcessorChain.Component)
    (c : ProcessorChain.Component) (s : ProcessorChain.State) :
  process (ProcessorChain.Chain (xs ++ ys)) s
  = (s' <- process (ProcessorChain.Chain xs) s ;; process (ProcessorChain.Chain ys) s')
  /\ process (ProcessorChain.Chain (ProcessorChain.add xs c)) s
     = (s' <- process (ProcessorChain.Chain xs) s ;; process c s').
Proof.
  split.
  - rewrite !process_chain_run, run_app.
    destruct (run xs s) as [s'|e]; cbn [bind]; [|reflexivity].
    symmetry. apply process_chain_run.
  - unfold ProcessorChain.add. rewrite !process_chain_run, run_app.
    destruct (run xs s) as [s'|e]; cbn [bind]; [|reflexivity].
    change (run [c] s') with (s'' <- process c s' ;; Ok s'').
    destruct (process c s'); reflexivity.
Qed.

(** X2.  A chain stops at the first component that raises: when the
    components [xs] raise [e], the chain of [xs] followed by any [ys] raises
    [e]; and when such a chain returns, [xs] returned and [ys] ran on its
    result. *)
Theorem chain_fails_fast (xs ys : list ProcessorChain.Component)
    (s : ProcessorChain.State) :
  (forall e, process (ProcessorChain.Chain xs) s = Raise e ->
             process (ProcessorChain.Chain (xs ++ ys)) s = Raise e)
  /\ (forall s2, process (ProcessorChain.Chain (xs ++ ys)) s = Ok s2 ->
      exists s1, process (ProcessorChain.Chain xs) s = Ok s1
                 /\ process (ProcessorChain.Chain ys) s1 = Ok s2).
Proof.
  rewrite !process_chain_run, run_app. split.
  - intros e H. rewrite H. reflexivity.
  - intros s2 H. destruct (run xs s) as [s1|e]; cbn [bind] in H; [|discriminate H].
    exists s1. split; [reflexivity|]. rewrite process_chain_run. exact H.
Qed.

(** X3.  A chain inside a chain runs as if its components were written in
    its place. *)
Theorem nested_chain_flattens (xs ys zs : list ProcessorChain.Component)
    (s : ProcessorChain.State) :
  process (ProcessorChain.Chain (xs ++ ProcessorChain.Chain ys :: zs)) s
  = process (ProcessorChain.Chain (xs ++ ys ++ zs)) s.
Proof.
  rewrite !process_chain_run, !run_app.
  destruct (run xs s) as [s1|e]; cbn [bind]; [|reflexivity].
  change (run (ProcessorChain.Chain ys :: zs) s1)
    with (s' <- process (ProcessorChain.Chain ys) s1 ;; run zs s').
  rewrite process_chain_run, run_app. reflexivity.
Qed.

(** X4.  [EmptyProcessor] is neutral: a chain with an empty stage anywhere
    among its components runs as the chain without it. *)
Theorem empty_processor_is_neutral (xs ys : list ProcessorChain.Component)
    (config : nat) (s : ProcessorChain.State) :
  process (ProcessorChain.Chain (xs ++ ProcessorChain.Empty config :: ys)) s
  = process (ProcessorChain.Chain (xs ++ ys)) s.
Proof.
  rewrite !process_chain_run, !run_app.
  destruct (run xs s) as [s1|e]; reflexivity.
Qed.

End Chain.

(** ** What the stages leave alone *)

Lemma padding_to_original_ratio_same_photo (c c' : ImageContainer) :
  PaddingToOriginalRatioProcessor.process c = Ok c' -> ProcessorChain.same_photo c c'.
Proof.
  unfold PaddingToOriginalRatioProcessor.process.
  destruct (get_ratio c) as [ratio|e]; cbn [bind]; [|discriminate].
  destruct (Py.gt (get_original_ratio c) ratio).
  - unfold PaddingToOriginalRatioProcessor.pad_height.
    destruct (Py.truediv (inject_Z (get_width c)) (get_original_ratio c));
      cbn [bind]; [|discriminate].
    intros [= <-]. repeat split.
  - cbn [bind]. intros [= <-]. repeat split.
Qed.

Lemma watermark_same_photo
    (text_to_image : string -> Font -> Font -> bool -> Color -> Image)
    (self : WatermarkProcessor.t) (c c' : ImageContainer) (config' : Config.t) :
  WatermarkProcessor.process text_to_image self c = Ok (config', c') ->
  ProcessorChain.same_photo c c'
  /\ config' = Config.set_bg_color (WatermarkProcessor.config self)
                 (WatermarkProcessor.bg_color self).
Proof.
  unfold WatermarkProcessor.process.
  destruct (WatermarkProcessor.band text_to_image self c) as [band|e];
    cbn [bind]; [|discriminate].
  match goal with
  | |- context [alpha_composite ?a ?b] => destruct (alpha_composite a b)
  end; cbn [bind]; [|discriminate].
  intros [= <- <-]. split; [repeat split | reflexivity].
Qed.

Section ChainInvariant.

Variable text_to_image : string -> Font -> Font -> bool -> Color -> Image.
Variable add_rounded_corners : Image -> Z -> Image.
Variable add_soft_shadow : Image -> Z -> Z * Z -> Z -> Image.
Variable square_image : Image -> Image.
Variable merge_images : list Image -> Z -> Z -> Image.
Variable resize_image_with_height : Image -> Z -> Image.
Variable get_alternative_font : Config.t -> Font.
Variable get_alternative_bold_font : Config.t -> Font.

Let process :=
  ProcessorChain.process text_to_image add_rounded_corners add_soft_shadow
    square_image merge_images resize_image_with_height get_alternative_font
    get_alternative_bold_font.

Let run :=
  ProcessorChain.run text_to_image add_rounded_corners add_soft_shadow
    square_image merge_images resize_image_with_height get_alternative_font
    get_alternative_bold_font.

Let kept (s s' : ProcessorChain.State) : Prop :=
  ProcessorChain.same_photo (ProcessorChain.container s) (ProcessorChain.container s')
  /\ forall ref,
       ProcessorChain.same_settings (ProcessorChain.configs s ref)
         (ProcessorChain.configs s' ref).

Lemma kept_refl (s : ProcessorChain.State) : kept s s.
Proof.
  split; [apply same_photo_refl | intros; apply same_settings_refl].
Qed.

Lemma kept_trans (a b c : ProcessorChain.State) : kept a b -> kept b c -> kept a c.
Proof.
  intros [Hp Hs] [Kp Ks]. split.
  - eapply same_photo_trans; eassumption.
  - intros ref. eapply same_settings_trans; [apply Hs | apply Ks].
Qed.

Lemma kept_with_container (s : ProcessorChain.State) (c : ImageContainer) :
  ProcessorChain.same_photo (ProcessorChain.container s) c ->
  kept s (ProcessorChain.with_container s c).
Proof.
  intros H. split; [exact H | intros; apply same_settings_refl].
Qed.

Lemma leaf_keeps (c : ProcessorChain.Component) :
  match c with
  | ProcessorChain.Chain _ => True
  | _ => forall s s', process c s = Ok s' -> kept s s'
  end.
Proof.
  destruct c; try exact I; intros s s'; unfold process; cbn [ProcessorChain.process].
  - intros [= <-]. apply kept_refl.
  - intros [= <-]. apply kept_with_container. repeat split.
  - intros [= <-]. apply kept_with_container. repeat split.
  - destruct (WatermarkProcessor.process text_to_image
                (ProcessorChain.bound self (ProcessorChain.configs s config))
                (ProcessorChain.container s)) as [[config' c']|e] eqn:E;
      cbn [bind fst snd]; [|discriminate].
    intros [= <-]. apply watermark_same_photo in E. destruct E as [Hp ->].
    split; [exact Hp|]. intros ref. cbn [ProcessorChain.configs].
    unfold ProcessorChain.assign. destruct (Nat.eqb ref config) eqn:Eref.
    + apply Nat.eqb_eq in Eref. subst ref. reflexivity.
    + apply same_settings_refl.
  - intros [= <-]. apply kept_with_container. repeat split.
  - unfold SimpleProcessor.process.
    match goal with
    | |- context [SimpleProcessor.caption_band ?a ?b ?c ?d ?e ?f ?g] =>
        destruct (SimpleProcessor.caption_band a b c d e f g)
    end; cbn [bind]; [|discriminate].
    intros [= <-]. apply kept_with_container. repeat split.
  - destruct (PaddingToOriginalRatioProcessor.process (ProcessorChain.container s))
      as [c'|e] eqn:E; cbn [bind]; [|discriminate].
    intros [= <-]. apply kept_with_container.
    apply padding_to_original_ratio_same_photo. exact E.
  - intros [= <-]. apply kept_with_container. repeat split.
  - intros [= <-]. apply kept_with_container. repeat split.
  - intros [= <-]. apply kept_with_container. repeat split.
  - destruct (BackgroundBlurWithParamsProcessor.process text_to_image
                add_rounded_corners add_soft_shadow
                (ProcessorChain.configs s config) (ProcessorChain.container s))
      as [c'|e] eqn:E; cbn [bind]; [|discriminate].
    intros [= <-]. apply kept_with_container.
    destruct (params_process_inversion _ _ _ _ _ _ E) as (m & p & _ & _ & _ & Hp).
    rewrite Hp in E. cbv zeta in E. injection E as <-. repeat split.
Qed.

(** X5.  Whatever components a chain holds, when it returns the container
    still has the photo and metadata it started with (original image,
    original ratio, make, model, parameter text, attribute lookup): only the
    working image is replaced.  Every config object has its settings
    unchanged but for [bg_color]. *)
Theorem chain_keeps_photo_and_settings (c : ProcessorChain.Component)
    (s s' : ProcessorChain.State) :
  process c s = Ok s' ->
  ProcessorChain.same_photo (ProcessorChain.container s) (ProcessorChain.container s')
  /\ forall ref,
       ProcessorChain.same_settings (ProcessorChain.configs s ref)
         (ProcessorChain.configs s' ref).
Proof.
  revert s s'. change (forall s s', process c s = Ok s' -> kept s s').
  revert c.
  apply (Component_induction (fun c => forall s s', process c s = Ok s' -> kept s s')).
  - apply leaf_keeps.
  - intros components Hall s s' H. unfold process in H.
    rewrite process_chain_run in H. fold run in H.
    revert s H. induction Hall as [|x rest Hx _ IH]; intros s H.
    + injection H as <-. apply kept_refl.
    + change (run (x :: rest) s) with (s1 <- process x s ;; run rest s1) in H.
      destruct (process x s) as [s1|e] eqn:E; cbn [bind] in H; [|discriminate H].
      apply kept_trans with s1; [apply Hx; exact E | apply IH; exact H].
Qed.

(** X6.  The config is shared by reference.  A watermark stage assigns its
    own [bg_color] to its config object; a margin stage that runs after it
    fills its border with that colour when it was constructed with the same
    object, and with the colour its own object had when it was constructed
    with another one. *)
Theorem margin_after_watermark (self : WatermarkProcessor.t) (ref ref' : nat)
    (s s1 : ProcessorChain.State) :
  process (ProcessorChain.Watermark self ref) s = Ok s1 ->
  exists s2 thickness,
    process (ProcessorChain.Chain
               [ProcessorChain.Watermark self ref; ProcessorChain.Margin ref']) s
    = Ok s2
    /\ watermark_img (ProcessorChain.container s2)
       = ImageOps_expand (watermark_img (ProcessorChain.container s1))
           thickness thickness thickness 0
           (if Nat.eqb ref' ref
            then WatermarkProcessor.bg_color self
            else Config.bg_color (ProcessorChain.configs s ref')).
Proof.
  intros H.
  assert (Hc : Config.bg_color (ProcessorChain.configs s1 ref')
               = if Nat.eqb ref' ref
                 then WatermarkProcessor.bg_color self
                 else Config.bg_color (ProcessorChain.configs s ref')).
  { unfold process in H. cbn [ProcessorChain.process] in H.
    destruct (WatermarkProcessor.process text_to_image
                (ProcessorChain.bound self (ProcessorChain.configs s ref))
                (ProcessorChain.container s)) as [[config' c']|e] eqn:E;
      cbn [bind fst snd] in H; [|discriminate H].
    injection H as <-. apply watermark_same_photo in E. destruct E as [_ ->].
    cbn [ProcessorChain.configs]. unfold ProcessorChain.assign.
    destruct (Nat.eqb ref' ref); reflexivity. }
  unfold process. rewrite process_chain_run.
  change (ProcessorChain.run text_to_image add_rounded_corners add_soft_shadow
            square_image merge_images resize_image_with_height get_alternative_font
            get_alternative_bold_font
            [ProcessorChain.Watermark self ref; ProcessorChain.Margin ref'] s)
    with (s' <- process (ProcessorChain.Watermark self ref) s ;;
          s'' <- process (ProcessorChain.Margin ref') s' ;; Ok s'').
  rewrite H. cbn [bind]. unfold process. cbn [ProcessorChain.process bind].
  eexists. eexists. split; [reflexivity|].
  cbn [ProcessorChain.container ProcessorChain.with_container].
  unfold MarginProcessor.process, padding_image.
  cbn [watermark_img update_watermark_img Py.contains Ascii.eqb Bool.eqb orb].
  rewrite Hc. reflexivity.
Qed.

End ChainInvariant.

(** A chain on a working image of height zero stops at the ratio padding;
    a chain of two margins runs both. *)
Lemma chain_fails_fast_witness :
  let process :=
    ProcessorChain.process Sample.text_to_image SampleUtils.add_rounded_corners
      SampleUtils.add_soft_shadow SampleUtils.square_image SampleUtils.merge_images
      SampleUtils.resize_image_with_height SampleUtils.get_alternative_font
      SampleUtils.get_alternative_bold_font in
  let config := Sample.config true true None 5 0 in
  process (ProcessorChain.Chain
             ([ProcessorChain.PaddingToOriginalRatio 0]
              ++ [ProcessorChain.BackgroundBlur 0]))
    (SampleUtils.state config (Sample.container 4000 0 4000 3000))
  = Raise ZeroDivisionError
  /\ exists s1,
       process (ProcessorChain.Chain [ProcessorChain.Margin 0])
         (SampleUtils.state config (Sample.container 3000 4000 3000 4000))
       = Ok s1
       /\ size (watermark_img (ProcessorChain.container s1)) = (3300, 4150).
Proof.
  intros process config. split.
  - apply (chain_fails_fast Sample.text_to_image SampleUtils.add_rounded_corners
             SampleUtils.add_soft_shadow SampleUtils.square_image
             SampleUtils.merge_images SampleUtils.resize_image_with_height
             SampleUtils.get_alternative_font SampleUtils.get_alternative_bold_font
             [ProcessorChain.PaddingToOriginalRatio 0]
             [ProcessorChain.BackgroundBlur 0]).
    reflexivity.
  - destruct (chain_fails_fast Sample.text_to_image SampleUtils.add_rounded_corners
                SampleUtils.add_soft_shadow SampleUtils.square_image
                SampleUtils.merge_images SampleUtils.resize_image_with_height
                SampleUtils.get_alternative_font SampleUtils.get_alternative_bold_font
                [ProcessorChain.Margin 0] [ProcessorChain.PureWhiteMargin 0]
                (SampleUtils.state config (Sample.container 3000 4000 3000 4000)))
      as [_ H].
    destruct (H _ eq_refl) as (s1 & H1 & _).
    exists s1. split; [exact H1|].
    vm_compute in H1. injection H1 as <-. reflexivity.
Defined.

Lemma chain_keeps_photo_and_settings_witness :
  let process :=
    ProcessorChain.process Sample.text_to_image SampleUtils.add_rounded_corners
      SampleUtils.add_soft_shadow SampleUtils.square_image SampleUtils.merge_images
      SampleUtils.resize_image_with_height SampleUtils.get_alternative_font
      SampleUtils.get_alternative_bold_font in
  let config := Sample.config true true (Some Sample.logo) 5 0 in
  let s := SampleUtils.state config (Sample.container 4000 3000 4000 3000) in
  let chain :=
    ProcessorChain.Chain
      [ProcessorChain.Watermark (DarkWatermarkLeftLogoProcessor.init config) 0;
       ProcessorChain.Chain [ProcessorChain.Margin 0; ProcessorChain.Shadow 0];
       ProcessorChain.BackgroundBlurWithParams 0] in
  exists s',
    process chain s = Ok s'
    /\ ProcessorChain.same_photo (ProcessorChain.container s)
         (ProcessorChain.container s').
Proof.
  intros process config s chain.
  destruct (process chain s) as [s'|e] eqn:E.
  - exists s'. split; [reflexivity|].
    apply (chain_keeps_photo_and_settings Sample.text_to_image
             SampleUtils.add_rounded_corners SampleUtils.add_soft_shadow
             SampleUtils.square_image SampleUtils.merge_images
             SampleUtils.resize_image_with_height SampleUtils.get_alternative_font
             SampleUtils.get_alternative_bold_font chain s s' E).
  - vm_compute in E. discriminate E.
Defined.

(** The dark left-logo watermark and a margin on one config object: the
    margin is filled with the dark background, not with the white one of the
    config. *)
Lemma margin_after_watermark_witness :
  let process :=
    ProcessorChain.process Sample.text_to_image SampleUtils.add_rounded_corners
      SampleUtils.add_soft_shadow SampleUtils.square_image SampleUtils.merge_images
      SampleUtils.resize_image_with_height SampleUtils.get_alternative_font
      SampleUtils.get_alternative_bold_font in
  let config := Sample.config true true (Some Sample.logo) 5 0 in
  let s := SampleUtils.state config (Sample.container 4000 3000 4000 3000) in
  let self := DarkWatermarkLeftLogoProcessor.init config in
  Config.bg_color config = ColorStr "#ffffff"
  /\ exists s1 s2 thickness,
       process (ProcessorChain.Chain
                  [ProcessorChain.Watermark self 0; ProcessorChain.Margin 0]) s
       = Ok s2
       /\ watermark_img (ProcessorChain.container s2)
          = ImageOps_expand (watermark_img (ProcessorChain.container s1))
              thickness thickness thickness 0 (ColorStr "#212121").
Proof.
  intros process config s self. split; [reflexivity|].
  destruct (process (ProcessorChain.Watermark self 0) s) as [s1|e] eqn:E.
  - destruct (margin_after_watermark Sample.text_to_image
                SampleUtils.add_rounded_corners SampleUtils.add_soft_shadow
                SampleUtils.square_image SampleUtils.merge_images
                SampleUtils.resize_image_with_height SampleUtils.get_alternative_font
                SampleUtils.get_alternative_bold_font self 0%nat 0%nat s s1 E)
      as (s2 & thickness & H2 & Himg).
    exists s1, s2, thickness. split; [exact H2 | exact Himg].
  - vm_compute in E. discriminate E.
Defined.

(** ** Shadow frame *)

Lemma int_div_512 (n : Z) : 0 <= n -> Py.int (inject_Z n / 512)%Q = n / 512.
Proof.
  intros H. unfold Py.int. simpl. rewrite Z.mul_1_r.
  apply Z.quot_div_nonneg; lia.
Qed.

(** X7.  On a working image of [W] x [H] pixels the shadow stage computes
    the radius [r = floor (max W H / 512)] and returns an image of
    [W + 4 r] x [H + 4 r] pixels: the blurred frame with the photo pasted at
    [(r, r)].  The photo is therefore not centred: [r] pixels of frame are
    left at the left and at the top, [3 r] at the right and at the bottom. *)
Theorem shadow_frame (container : ImageContainer) :
  0 <= get_width container ->
  0 <= get_height container ->
  let W := get_width container in
  let H := get_height container in
  let r := Z.max W H / 512 in
  let out := watermark_img (ShadowProcessor.process container) in
  size out = (W + 4 * r, H + 4 * r)
  /\ out = Image_paste
             (Image_filter_GaussianBlur
                (ImageOps_expand (Image_new "RGB" W H (ColorStr "#6B696A"))
                   (r * 2) (r * 2) (r * 2) (r * 2) (ColorRGB 255 255 255)) r)
             (get_watermark_img container) r r
  /\ width out - (r + W) = 3 * r
  /\ height out - (r + H) = 3 * r.
Proof.
  intros HW HH W H r out.
  assert (Hout : out = Image_paste
             (Image_filter_GaussianBlur
                (ImageOps_expand (Image_new "RGB" W H (ColorStr "#6B696A"))
                   (r * 2) (r * 2) (r * 2) (r * 2) (ColorRGB 255 255 255)) r)
             (get_watermark_img container) r r).
  { unfold out, ShadowProcessor.process.
    cbn [watermark_img update_watermark_img expand4].
    fold (get_width container) (get_height container). fold W H.
    rewrite int_div_512 by lia. reflexivity. }
  rewrite Hout. unfold size. cbn [width height].
  repeat split; try lia. f_equal; lia.
Qed.

(** A 4000 x 3000 photo: radius 7, frame of 4028 x 3028. *)
Lemma shadow_frame_witness :
  size (watermark_img (ShadowProcessor.process (Sample.container 4000 3000 4000 3000)))
  = (4028, 3028).
Proof.
  destruct (shadow_frame (Sample.container 4000 3000 4000 3000)) as (H & _).
  - vm_compute. discriminate.
  - vm_compute. discriminate.
  - exact H.
Defined.

(** ** Blurred background with a white border *)

Lemma int_ratio_256 (p m : Z) :
  0 <= p -> 0 <= m -> Py.int (inject_Z p * inject_Z m / 256)%Q = p * m / 256.
Proof.
  intros Hp Hm. unfold Py.int. simpl. rewrite Z.mul_1_r.
  apply Z.quot_div_nonneg; [apply Z.mul_nonneg_nonneg; assumption | lia].
Qed.

(** X8.  With a margin width [p >= 0] the stage borders the working image
    ([W] x [H]) in white by [t = floor (p * min W H / 256)] pixels on all four
    sides and pastes it, centred, on a backdrop made from the original image
    of the container (blurred, resized to 1.18 times the bordered size
    rounded down, blended one tenth toward white).  The output has the size
    the plain blurred-background stage gives for the bordered image. *)
Theorem white_border_blur (config : Config.t) (container : ImageContainer) :
  0 <= Config.get_white_margin_width config ->
  0 <= get_width container ->
  0 <= get_height container ->
  let W := get_width container in
  let H := get_height container in
  let t := Config.get_white_margin_width config * Z.min W H / 256 in
  let bordered :=
    ImageOps_expand (get_watermark_img container) t t t t (ColorStr "white") in
  let out :=
    watermark_img (BackgroundBlurWithWhiteBorderProcessor.process config container) in
  size bordered = (W + 2 * t, H + 2 * t)
  /\ size out = ((W + 2 * t) * 118 / 100, (H + 2 * t) * 118 / 100)
  /\ size out
     = size (watermark_img
               (BackgroundBlurProcessor.process
                  (update_watermark_img container bordered)))
  /\ out = Image_paste
             (Image_blend
                (Image_resize
                   (Image_filter_GaussianBlur (get_img container) GAUSSIAN_KERNEL_RADIUS)
                   (width out) (height out))
                (Image_new "RGB" (width out) (height out) (ColorRGB 255 255 255))
                (1 # 10))
             bordered
             ((width out - width bordered) / 2) ((height out - height bordered) / 2).
Proof.
  intros Hp HW HH W H t bordered out.
  assert (Ht : 0 <= t) by (apply Z.div_pos; [apply Z.mul_nonneg_nonneg|]; lia).
  assert (Hbw : width bordered = W + 2 * t)
    by (unfold bordered; cbn [width]; fold (get_width container); lia).
  assert (Hbh : height bordered = H + 2 * t)
    by (unfold bordered; cbn [height]; fold (get_height container); lia).
  assert (Hhalf : forall n, (n * 118 / 100 - n) / 2 = n * 18 / 100 / 2).
  { intros n. replace (n * 118) with (n * 18 + n * 100) by ring.
    rewrite Z.div_add by lia. f_equal. ring. }
  assert (Hout : out = Image_paste
             (Image_blend
                (Image_resize
                   (Image_filter_GaussianBlur (get_img container) GAUSSIAN_KERNEL_RADIUS)
                   (width bordered * 118 / 100) (height bordered * 118 / 100))
                (Image_new "RGB" (width bordered * 118 / 100)
                   (height bordered * 118 / 100) (ColorRGB 255 255 255))
                (1 # 10))
             bordered
             (width bordered * 18 / 100 / 2) (height bordered * 18 / 100 / 2)).
  { unfold out, BackgroundBlurWithWhiteBorderProcessor.process, padding_image.
    cbn [Py.contains Ascii.eqb Bool.eqb orb].
    fold W H. rewrite int_ratio_256 by lia. fold t. fold bordered.
    change (1 + PADDING_PERCENT_IN_BACKGROUND)%Q with (118 # 100)%Q.
    unfold PADDING_PERCENT_IN_BACKGROUND.
    rewrite !int_scale, !int_scale_half by lia. reflexivity. }
  split; [unfold size; rewrite Hbw, Hbh; reflexivity|].
  assert (Hsize : size out = ((W + 2 * t) * 118 / 100, (H + 2 * t) * 118 / 100))
    by (rewrite Hout; unfold size; cbn [width height]; rewrite Hbw, Hbh; reflexivity).
  split; [exact Hsize|].
  split.
  { rewrite Hsize. unfold BackgroundBlurProcessor.process, size.
    cbn [watermark_img update_watermark_img width height].
    unfold get_width, get_height, get_watermark_img.
    cbn [watermark_img update_watermark_img].
    change (1 + PADDING_PERCENT_IN_BACKGROUND)%Q with (118 # 100)%Q.
    rewrite !int_scale by lia. rewrite Hbw, Hbh. reflexivity. }
  rewrite Hout at 1. cbn [width height].
  assert (Ew : width out = width bordered * 118 / 100)
    by (rewrite Hout; reflexivity).
  assert (Eh : height out = height bordered * 118 / 100)
    by (rewrite Hout; reflexivity).
  rewrite Ew, Eh, !Hhalf. reflexivity.
Qed.

(** A 4000 x 3000 working image with margin width 5: a border of 58 pixels
    and an output of 4856 x 3676. *)
Lemma white_border_blur_witness :
  size (watermark_img
          (BackgroundBlurWithWhiteBorderProcessor.process
             (Sample.config true true None 5 0)
             (Sample.container 4000 3000 4000 3000)))
  = (4856, 3676).
Proof.
  destruct (white_border_blur (Sample.config true true None 5 0)
              (Sample.container 4000 3000 4000 3000)) as (_ & H & _).
  - vm_compute. discriminate.
  - vm_compute. discriminate.
  - vm_compute. discriminate.
  - exact H.
Defined.

(** ** Canvas and caption of the blurred background with parameters *)

Lemma params_final_size (container : ImageContainer) :
  0 <= get_width container -> 0 <= get_height container ->
  BackgroundBlurWithParamsProcessor.final_width container
  = get_width container * 118 / 100
  /\ BackgroundBlurWithParamsProcessor.final_height container
     = get_height container * 118 / 100 + get_height container * 8 / 100.
Proof.
  intros HW HH.
  unfold BackgroundBlurWithParamsProcessor.final_width,
    BackgroundBlurWithParamsProcessor.final_height,
    BackgroundBlurWithParamsProcessor.params_area_height.
  change (1 + PADDING_PERCENT_IN_BACKGROUND)%Q with (118 # 100)%Q.
  rewrite !int_scale by lia. split; reflexivity.
Qed.

(** X9.  On a working image of [W] x [H] pixels, whenever the stage returns
    its output is the enlarged canvas of
    [floor (1.18 W)] x [floor (1.18 H) + floor (0.08 H)] pixels, and the last
    thing pasted is the photo with rounded corners (radius [floor (W / 100)])
    and shadow, at [(floor (0.09 W) - 10, floor (0.09 H) - top_padding - 10)]
    with [top_padding = floor (floor (0.18 H) / 10)].  The stage returns for
    every corner mask and shadow when the working image is at least 1 x 1 and
    the two texts are scaled without a refused resize. *)
Theorem params_canvas
    (text_to_image : string -> Font -> Font -> bool -> Color -> Image)
    (add_rounded_corners : Image -> Z -> Image)
    (add_soft_shadow : Image -> Z -> Z * Z -> Z -> Image)
    (config : Config.t) (container : ImageContainer) :
  0 <= get_width container ->
  0 <= get_height container ->
  let W := get_width container in
  let H := get_height container in
  (forall out,
     BackgroundBlurWithParamsProcessor.process text_to_image add_rounded_corners
       add_soft_shadow config container = Ok out ->
     exists canvas shadow,
       size (watermark_img out) = (W * 118 / 100, H * 118 / 100 + H * 8 / 100)
       /\ watermark_img out
          = Image_paste_mask canvas shadow
              (W * 18 / 100 / 2 - 10) (H * 18 / 100 / 2 - H * 18 / 100 / 10 - 10)
              shadow
       /\ shadow
          = add_soft_shadow
              (add_rounded_corners (get_watermark_img container) (W / 100))
              15 (5, 5) 128)
  /\ (1 <= W -> 1 <= H ->
      forall texts,
        BackgroundBlurWithParamsProcessor.text_images text_to_image config container
        = Ok texts ->
        exists out,
          BackgroundBlurWithParamsProcessor.process text_to_image add_rounded_corners
            add_soft_shadow config container = Ok out).
Proof.
  intros HW HH W H.
  destruct (params_final_size container HW HH) as [Hfw Hfh].
  fold W H in Hfw, Hfh. split.
  - intros out Hout.
    destruct (params_process_inversion text_to_image add_rounded_corners
                add_soft_shadow config container out Hout)
      as (model_image & param_image & _ & _ & _ & Hp).
    rewrite Hp in Hout. cbv zeta in Hout. injection Hout as <-.
    do 2 eexists.
    cbn [watermark_img update_watermark_img].
    unfold size. cbn [width height]. rewrite Hfw, Hfh.
    unfold BackgroundBlurWithParamsProcessor.top_padding,
      BackgroundBlurWithParamsProcessor.total_padding_height.
    unfold PADDING_PERCENT_IN_BACKGROUND.
    rewrite !int_scale, !int_scale_half by lia. fold W H.
    rewrite Z.mul_1_r.
    replace (W * 18 / 100 / 2 - 15 + 5) with (W * 18 / 100 / 2 - 10) by lia.
    replace (H * 18 / 100 / 2 - H * 18 / 100 / 10 - 15 + 5)
      with (H * 18 / 100 / 2 - H * 18 / 100 / 10 - 10) by lia.
    repeat split.
  - intros HW1 HH1 texts Ht.
    apply (params_process_returns _ _ _ _ _ texts); [| |exact Ht].
    + rewrite Hfw. apply Z.div_le_lower_bound; lia.
    + rewrite Hfh.
      assert (1 <= H * 118 / 100) by (apply Z.div_le_lower_bound; lia).
      assert (0 <= H * 8 / 100) by (apply Z.div_pos; lia).
      lia.
Qed.

Lemma params_canvas_witness :
  exists out,
    BackgroundBlurWithParamsProcessor.process Sample.text_to_image
      SampleUtils.add_rounded_corners SampleUtils.add_soft_shadow
      (Sample.config true true None 5 0) (Sample.container 4000 3000 4000 3000)
    = Ok out
    /\ size (watermark_img out) = (4720, 3780).
Proof.
  destruct (params_canvas Sample.text_to_image SampleUtils.add_rounded_corners
              SampleUtils.add_soft_shadow (Sample.config true true None 5 0)
              (Sample.container 4000 3000 4000 3000)
              ltac:(vm_compute; discriminate) ltac:(vm_compute; discriminate))
    as [Hsize Hreturns].
  destruct (Hreturns ltac:(vm_compute; discriminate) ltac:(vm_compute; discriminate)
              (Image_resize (Raster 400 100) 480 120,
               Image_resize (Raster 1080 90) 1296 108)
              ltac:(vm_compute; reflexivity)) as (out & Hout).
  destruct (Hsize out Hout) as (canvas & shadow & Hs & _).
  exists out. split; [exact Hout | exact Hs].
Defined.

(** What the two texts are when they have been scaled: one factor, not above
    the height-driven scale as rounded, applied to both bitmaps. *)
Lemma text_images_returns
    (text_to_image : string -> Font -> Font -> bool -> Color -> Image)
    (config : Config.t) (container : ImageContainer) (m p : Image) :
  0 <= get_height container ->
  0 <= get_width container ->
  (forall content font bold_font is_bold fill,
     0 <= width (text_to_image content font bold_font is_bold fill)
     /\ 0 <= height (text_to_image content font bold_font is_bold fill)) ->
  BackgroundBlurWithParamsProcessor.text_images text_to_image config container
  = Ok (m, p) ->
  let model_image :=
    BackgroundBlurWithParamsProcessor.rendered_model text_to_image config container in
  let param_image :=
    BackgroundBlurWithParamsProcessor.rendered_param text_to_image config container in
  let band := get_height container * 8 / 100 in
  let budget := get_width container * 75 / 100 in
  let widest := Z.max (width model_image) (width param_image) in
  exists s,
    BackgroundBlurWithParamsProcessor.scaled model_image s = Ok m
    /\ BackgroundBlurWithParamsProcessor.scaled param_image s = Ok p
    /\ (0 <= s)%Q
    /\ (s <= Float.round
               (inject_Z band
                / inject_Z (height model_image + height param_image + 10)))%Q
    /\ (s <= if 0 <? widest
             then Float.round (inject_Z budget / inject_Z widest) else 1)%Q
    /\ 0 <= width model_image /\ 0 <= height model_image
    /\ 0 <= width param_image /\ 0 <= height param_image
    /\ 0 <= band /\ 0 <= budget.
Proof.
  intros HH HW Hraster Ht model_image param_image band budget widest.
  destruct (Hraster (get_model container) (Config.get_font config)
              (Config.get_bold_font config) true (ColorStr "#F5F5F5")) as [Hmw Hmh].
  destruct (Hraster (get_param_str container) (Config.get_font config)
              (Config.get_bold_font config) false (ColorStr "#F5F5F5")) as [Hpw Hph].
  fold (BackgroundBlurWithParamsProcessor.rendered_model text_to_image config container)
    in Hmw, Hmh.
  fold (BackgroundBlurWithParamsProcessor.rendered_param text_to_image config container)
    in Hpw, Hph.
  fold model_image in Hmw, Hmh. fold param_image in Hpw, Hph.
  assert (Hband0 : 0 <= band) by (apply Z.div_pos; lia).
  assert (Hbudget0 : 0 <= budget) by (apply Z.div_pos; lia).
  unfold BackgroundBlurWithParamsProcessor.text_images in Ht.
  rewrite params_area_height_floor, max_text_width_floor in Ht by assumption.
  fold model_image param_image band budget in Ht.
  assert (Htotal : 0 < height model_image + height param_image + 10) by lia.
  destruct (scale_text_images_returns _ _ _ _ _ _ _ Htotal Ht) as (s & Hs & Hm & Hp).
  destruct (scale_factor_bounds _ _ _ _ _ _ Hband0 Hbudget0 Htotal Hs)
    as (Hs0 & Hsh & Hsw).
  exists s. repeat split; assumption.
Qed.

(** X10.  On a working image of at most [2 ^ 50] rows: when the two texts as
    rendered, stacked with the gap of 10 pixels, are not taller than the
    caption band, they still fit once they have been scaled: the scaled
    heights and the gap together do not exceed the band. *)
Theorem text_stack_fits
    (text_to_image : string -> Font -> Font -> bool -> Color -> Image)
    (config : Config.t) (container : ImageContainer) (m p : Image) :
  0 <= get_height container ->
  get_height container <= 2 ^ 50 ->
  0 <= get_width container ->
  (forall content font bold_font is_bold fill,
     0 <= width (text_to_image content font bold_font is_bold fill)
     /\ 0 <= height (text_to_image content font bold_font is_bold fill)) ->
  let model_image :=
    BackgroundBlurWithParamsProcessor.rendered_model text_to_image config container in
  let param_image :=
    BackgroundBlurWithParamsProcessor.rendered_param text_to_image config container in
  let band := BackgroundBlurWithParamsProcessor.params_area_height container in
  height model_image + height param_image + 10 <= band ->
  BackgroundBlurWithParamsProcessor.text_images text_to_image config container
  = Ok (m, p) ->
  height m + height p + 10 <= band.
Proof.
  intros HH HH50 HW Hraster model_image param_image band Hfit Ht.
  destruct (text_images_returns text_to_image config container m p HH HW Hraster Ht)
    as (s & Hm & Hp & Hs0 & Hsq & _ & _ & Hmh & _ & Hph & Hband0 & _).
  fold model_image param_image in Hm, Hp, Hsq, Hmh, Hph.
  assert (Hband : band = get_height container * 8 / 100)
    by (apply params_area_height_floor; exact HH).
  rewrite <- Hband in Hsq, Hband0.
  assert (Hband50 : band <= 2 ^ 50).
  { rewrite Hband. apply Z.le_trans with (get_height container); [|exact HH50].
    apply Z.div_le_upper_bound; lia. }
  set (hm := height model_image) in *. set (hp := height param_image) in *.
  assert (Hpos : (0 < inject_Z (hm + hp + 10))%Q) by (apply inject_Z_pos; lia).
  assert (Hcancel := Qdiv_cancel (inject_Z band) (inject_Z (hm + hp + 10)) Hpos).
  set (q := (inject_Z band / inject_Z (hm + hp + 10))%Q) in *.
  assert (Hq1 : (1 <= q)%Q).
  { apply Qle_shift_div_l; [exact Hpos|]. rewrite Qmult_1_l, <- Zle_Qle. exact Hfit. }
  assert (Hq0 : (0 <= q)%Q) by lra.
  pose proof (scaled_height_le model_image m s q Hm Hmh Hs0 Hq0 Hsq) as Hm'.
  pose proof (scaled_height_le param_image p s q Hp Hph Hs0 Hq0 Hsq) as Hp'.
  fold hm in Hm'. fold hp in Hp'.
  assert (Hb50q : (inject_Z band <= 1125899906842624)%Q)
    by (change 1125899906842624%Q with (inject_Z (2 ^ 50)); rewrite <- Zle_Qle;
        exact Hband50).
  rewrite !inject_Z_plus in Hcancel. change (inject_Z 10) with 10%Q in Hcancel.
  cut (height m + height p + 10 < band + 1); [lia|].
  rewrite Zlt_Qlt, !inject_Z_plus.
  change (inject_Z 10) with 10%Q. change (inject_Z 1) with 1%Q.
  unfold Float.u in Hm', Hp'.
  set (a := (inject_Z hm * q)%Q) in *. set (b := (inject_Z hp * q)%Q) in *.
  assert (Hsum : (inject_Z band == a + b + 10 * q)%Q) by (unfold a, b; lra).
  set (B := inject_Z band) in *.
  set (x := inject_Z (height m)) in *. set (y := inject_Z (height p)) in *.
  clearbody a b B x y. lra.
Qed.

(** The 4000 x 3000 photo: texts of 100 and 90 rows in a band of 240 rows
    become 120 and 108 rows, 238 with the gap. *)
Lemma text_stack_fits_witness :
  let m := Image_resize (Raster 400 100) 480 120 in
  let p := Image_resize (Raster 1080 90) 1296 108 in
  BackgroundBlurWithParamsProcessor.text_images Sample.text_to_image
    (Sample.config true true None 5 0) (Sample.container 4000 3000 4000 3000)
  = Ok (m, p)
  /\ height m + height p + 10 <= 240.
Proof.
  intros m p. split; [vm_compute; reflexivity|].
  apply (text_stack_fits Sample.text_to_image (Sample.config true true None 5 0)
           (Sample.container 4000 3000 4000 3000) m p).
  - vm_compute. discriminate.
  - vm_compute. discriminate.
  - vm_compute. discriminate.
  - exact sample_raster_nonneg.
  - vm_compute. discriminate.
  - vm_compute. reflexivity.
Defined.

(** ** Ratio padding at the edges *)

Lemma padding_to_original_ratio_never_pads_witness :
  exists out,
    PaddingToOriginalRatioProcessor.process (Sample.container 3000 2200 3000 2000)
    = Ok out
    /\ width (watermark_img out) <= 3000
    /\ height (watermark_img out) <= 2200.
Proof.
  destruct (PaddingToOriginalRatioProcessor.process
              (Sample.container 3000 2200 3000 2000)) as [out|e] eqn:E.
  - exists out. split; [reflexivity|].
    apply (padding_to_original_ratio_never_pads
             (Sample.container 3000 2200 3000 2000) out).
    + vm_compute. reflexivity.
    + vm_compute. reflexivity.
    + vm_compute. reflexivity.
    + exact E.
  - vm_compute in E. discriminate E.
Defined.

Lemma int_of_zero (x : Q) : (x == 0)%Q -> Py.int x = 0.
Proof.
  destruct x as [n d]. unfold Qeq, Py.int. simpl. intros H.
  replace n with 0 by lia. apply Z.quot_0_l. discriminate.
Qed.

(** X12.  A working image that has the original ratio exactly is given back
    with its size: the stage takes the width branch with a padding of 0. *)
Theorem padding_to_original_ratio_at_ratio (container : ImageContainer) :
  0 < get_width container ->
  0 < get_height container ->
  (get_original_ratio container
   == inject_Z (get_width container) / inject_Z (get_height container))%Q ->
  exists out,
    PaddingToOriginalRatioProcessor.process container = Ok out
    /\ watermark_img out
       = ImageOps_expand (get_watermark_img container) 0 0 0 0 (ColorStr "white")
    /\ size (watermark_img out) = (get_width container, get_height container).
Proof.
  intros HW HH Hr. unfold PaddingToOriginalRatioProcessor.process.
  rewrite get_ratio_ok by lia. cbn [bind].
  assert (HHq := inject_Z_pos _ HH).
  assert (Hgt : Py.gt (get_original_ratio container)
                  (inject_Z (get_width container) / inject_Z (get_height container))
                = false).
  { unfold Py.gt. apply negb_false_iff, Qle_bool_iff. rewrite Hr. apply Qle_refl. }
  rewrite Hgt. cbn [bind]. unfold PaddingToOriginalRatioProcessor.pad_width.
  rewrite int_of_zero.
  - eexists. split; [reflexivity|]. split; [reflexivity|].
    unfold size. cbn [watermark_img update_watermark_img expand2 width height].
    unfold get_width, get_height. f_equal; lia.
  - rewrite Hr. field. intros E. rewrite E in HHq. discriminate HHq.
Qed.

Lemma padding_to_original_ratio_at_ratio_witness :
  exists out,
    PaddingToOriginalRatioProcessor.process (Sample.container 4000 3000 4000 3000)
    = Ok out
    /\ size (watermark_img out) = (4000, 3000).
Proof.
  destruct (padding_to_original_ratio_at_ratio (Sample.container 4000 3000 4000 3000))
    as (out & Hp & _ & Hs).
  - vm_compute. reflexivity.
  - vm_compute. reflexivity.
  - vm_compute. reflexivity.
  - exists out. split; [exact Hp | exact Hs].
Defined.

(** ** Faults of the watermark stage *)

Lemma get_ratio_zero_height (container : ImageContainer) :
  get_height container = 0 -> get_ratio container = Raise ZeroDivisionError.
Proof.
  intros H. unfold get_ratio. rewrite H. reflexivity.
Qed.

Lemma landscape_ge_1 (w h : Z) : 0 < h -> h <= w -> Py.ge (inject_Z w / inject_Z h) 1 = true.
Proof.
  intros Hh Hw. unfold Py.ge. apply Qle_bool_iff.
  apply Qle_shift_div_l; [apply inject_Z_pos; exact Hh|].
  rewrite Qmult_1_l, <- Zle_Qle. exact Hw.
Qed.

(** X13.  The watermark stage divides by zero in two cases: when the working
    image has height zero (its ratio cannot be computed), and when a
    landscape image meets the font-padding level -2, which makes the band
    ratio 0.04 - 0.04 = 0. *)
Theorem watermark_zero_division
    (text_to_image : string -> Font -> Font -> bool -> Color -> Image)
    (self : WatermarkProcessor.t) (container : ImageContainer) :
  (get_height container = 0 ->
   WatermarkProcessor.process text_to_image self container = Raise ZeroDivisionError)
  /\ (0 < get_height container ->
      get_height container <= get_width container ->
      Config.get_font_padding_level (WatermarkProcessor.config self) = -2 ->
      WatermarkProcessor.process text_to_image self container
      = Raise ZeroDivisionError).
Proof.
  split.
  - intros H. unfold WatermarkProcessor.process, WatermarkProcessor.band.
    rewrite get_ratio_zero_height by exact H. reflexivity.
  - intros HH HW Hlevel. unfold WatermarkProcessor.process, WatermarkProcessor.band.
    rewrite get_ratio_ok by lia. cbn [bind Config.set_bg_color
      Config.get_font_padding_level].
    rewrite landscape_ge_1 by assumption. rewrite Hlevel. reflexivity.
Qed.

Lemma watermark_zero_division_witness :
  WatermarkProcessor.process Sample.text_to_image
    (WatermarkLeftLogoProcessor.init (Sample.config true true (Some Sample.logo) 5 0))
    (Sample.container 4000 0 4000 3000)
  = Raise ZeroDivisionError
  /\ WatermarkProcessor.process Sample.text_to_image
       (WatermarkLeftLogoProcessor.init
          (Sample.config true true (Some Sample.logo) 5 (-2)))
       (Sample.container 4000 3000 4000 3000)
     = Raise ZeroDivisionError.
Proof.
  split.
  - apply (proj1 (watermark_zero_division Sample.text_to_image
                    (WatermarkLeftLogoProcessor.init
                       (Sample.config true true (Some Sample.logo) 5 0))
                    (Sample.container 4000 0 4000 3000))).
    reflexivity.
  - apply (proj2 (watermark_zero_division Sample.text_to_image
                    (WatermarkLeftLogoProcessor.init
                       (Sample.config true true (Some Sample.logo) 5 (-2)))
                    (Sample.container 4000 3000 4000 3000))).
    + vm_compute. reflexivity.
    + vm_compute. discriminate.
    + reflexivity.
Defined.

Lemma watermark_process_returns
    (text_to_image : string -> Font -> Font -> bool -> Color -> Image)
    (self : WatermarkProcessor.t) (container : ImageContainer) :
  get_height container <> 0 ->
  0 <= Config.get_font_padding_level (WatermarkProcessor.config self) ->
  (WatermarkProcessor.assembly_branch self = WatermarkProcessor.LogoLeft ->
   Config.load_logo (WatermarkProcessor.config self) (make container) <> None) ->
  exists r, WatermarkProcessor.process text_to_image self container = Ok r.
Proof.
  intros HH Hlevel Hlogo.
  destruct (band_ok text_to_image self container HH Hlevel Hlogo) as (band & Hb & Hw).
  unfold WatermarkProcessor.process. rewrite Hb. cbn [bind expand4].
  unfold alpha_composite. cbn [width height].
  fold (get_width container) (get_height container). rewrite Hw.
  replace ((0 + get_width container + 0 =? 0 + get_width container + 0)
           && (0 + get_height container + height band
               =? get_height container + height band + 0)) with true
    by (symmetry; apply andb_true_iff; split; apply Z.eqb_eq; lia).
  cbn [bind]. eexists. reflexivity.
Qed.

(** X14.  A missing logo is handled on one side only.  With the logo enabled
    and no bitmap from the loader, the stage with the logo on the left raises
    [AttributeError] (it reads the height of the missing logo), while the
    stage with the logo on the right returns. *)
Theorem missing_logo_one_side_only
    (text_to_image : string -> Font -> Font -> bool -> Color -> Image)
    (self : WatermarkProcessor.t) (container : ImageContainer) :
  get_height container <> 0 ->
  0 <= Config.get_font_padding_level (WatermarkProcessor.config self) ->
  Config.load_logo (WatermarkProcessor.config self) (make container) = None ->
  (WatermarkProcessor.assembly_branch self = WatermarkProcessor.LogoLeft ->
   WatermarkProcessor.process text_to_image self container = Raise AttributeError)
  /\ (WatermarkProcessor.assembly_branch self = WatermarkProcessor.LogoRight ->
      exists r, WatermarkProcessor.process text_to_image self container = Ok r).
Proof.
  intros HH Hlevel Hnone. split.
  - intros Hb. unfold WatermarkProcessor.process, WatermarkProcessor.band.
    rewrite get_ratio_ok by exact HH. cbn [bind Config.set_bg_color
      Config.get_font_padding_level Config.load_logo].
    rewrite truediv_nonzero by (apply band_ratio_nonzero; exact Hlevel).
    cbn [bind]. rewrite Hnone.
    rewrite left_logo_absent_raises by exact Hb. reflexivity.
  - intros Hb. apply watermark_process_returns; try assumption.
    intros Hl. rewrite Hl in Hb. discriminate Hb.
Qed.

Lemma missing_logo_one_side_only_witness :
  let config := Sample.config true true None 5 0 in
  let container := Sample.container 4000 3000 4000 3000 in
  WatermarkProcessor.process Sample.text_to_image
    (WatermarkLeftLogoProcessor.init config) container
  = Raise AttributeError
  /\ exists r,
       WatermarkProcessor.process Sample.text_to_image
         (WatermarkRightLogoProcessor.init config) container
       = Ok r.
Proof.
  intros config container. split.
  - destruct (missing_logo_one_side_only Sample.text_to_image
                (WatermarkLeftLogoProcessor.init config) container) as [Hleft _].
    + vm_compute. discriminate.
    + vm_compute. discriminate.
    + reflexivity.
    + apply Hleft. reflexivity.
  - destruct (missing_logo_one_side_only Sample.text_to_image
                (WatermarkRightLogoProcessor.init config) container) as [_ Hright].
    + vm_compute. discriminate.
    + vm_compute. discriminate.
    + reflexivity.
    + apply Hright. reflexivity.
Defined.

(** ** The simple caption *)

Lemma replace_length (old new : ascii) (s : string) :
  String.length (PyStr.replace old new s) = String.length s.
Proof.
  induction s as [|a s IH]; cbn [PyStr.replace String.length]; congruence.
Qed.

Lemma replace_removes (old new : ascii) (s : string) :
  new <> old -> Py.contains old (PyStr.replace old new s) = false.
Proof.
  intros Hne. induction s as [|a s IH]; [reflexivity|].
  cbn [PyStr.replace Py.contains]. rewrite IH, orb_false_r.
  destruct (Ascii.eqb a old) eqn:E; [|exact E].
  apply Ascii.eqb_neq. exact Hne.
Qed.

Lemma replace_keeps_absent (c old new : ascii) (s : string) :
  new <> c -> Py.contains c s = false ->
  Py.contains c (PyStr.replace old new s) = false.
Proof.
  intros Hne. induction s as [|a s IH]; [reflexivity|].
  cbn [PyStr.replace Py.contains]. intros H.
  apply orb_false_iff in H. destruct H as [Ha Hs].
  rewrite (IH Hs), orb_false_r.
  destruct (Ascii.eqb a old); [apply Ascii.eqb_neq; exact Hne | exact Ha].
Qed.

Lemma replace_get (old new : ascii) (s : string) (i : nat) :
  String.get i (PyStr.replace old new s)
  = option_map (fun a => if Ascii.eqb a old then new else a) (String.get i s).
Proof.
  revert i. induction s as [|a s IH]; intros i; [reflexivity|].
  destruct i as [|i]; cbn [PyStr.replace String.get option_map]; [reflexivity|].
  apply IH.
Qed.

Lemma split_first_no_separator (sep : ascii) (s : string) :
  Py.contains sep (PyStr.split_first sep s) = false.
Proof.
  induction s as [|a s IH]; [reflexivity|].
  cbn [PyStr.split_first]. destruct (Ascii.eqb a sep) eqn:E; [reflexivity|].
  cbn [Py.contains]. rewrite E, IH. reflexivity.
Qed.

Lemma split_first_prefix (sep : ascii) (s : string) :
  String.prefix (PyStr.split_first sep s) s = true.
Proof.
  induction s as [|a s IH]; [reflexivity|].
  cbn [PyStr.split_first]. destruct (Ascii.eqb a sep); [reflexivity|].
  cbn [String.prefix]. destruct (ascii_dec a a) as [_|Hne]; [exact IH|].
  exfalso. apply Hne. reflexivity.
Qed.

Lemma split_first_whole (sep : ascii) (s : string) :
  Py.contains sep s = false -> PyStr.split_first sep s = s.
Proof.
  induction s as [|a s IH]; [reflexivity|].
  cbn [Py.contains PyStr.split_first]. intros H.
  apply orb_false_iff in H. destruct H as [Ha Hs].
  rewrite Ha, (IH Hs). reflexivity.
Qed.

(** X15.  The texts the caption stage hands to the rasterizer.  The model
    name keeps its length and every character but ['/'] and ['_'], which
    become spaces, so that the text holds neither.  The make is cut before
    its first space: the text is a prefix of the make without any space, and
    the whole make when the make has none. *)
Theorem caption_texts (container : ImageContainer) :
  String.length (SimpleProcessor.model_text container)
  = String.length (get_model container)
  /\ Py.contains "/"%char (SimpleProcessor.model_text container) = false
  /\ Py.contains "_"%char (SimpleProcessor.model_text container) = false
  /\ (forall i,
        String.get i (SimpleProcessor.model_text container)
        = option_map
            (fun a => if Ascii.eqb a "/"%char || Ascii.eqb a "_"%char
                      then " "%char else a)
            (String.get i (get_model container)))
  /\ Py.contains " "%char (SimpleProcessor.make_text container) = false
  /\ String.prefix (SimpleProcessor.make_text container) (get_make container) = true
  /\ (Py.contains " "%char (get_make container) = false ->
      SimpleProcessor.make_text container = get_make container).
Proof.
  unfold SimpleProcessor.model_text, SimpleProcessor.make_text.
  split; [rewrite !replace_length; reflexivity|].
  split; [apply replace_keeps_absent; [discriminate | apply replace_removes; discriminate]|].
  split; [apply replace_removes; discriminate|].
  split.
  { intros i. rewrite !replace_get.
    destruct (String.get i (get_model container)) as [a|]; [|reflexivity].
    cbn [option_map]. f_equal.
    destruct (Ascii.eqb a "/") eqn:E1; cbn [orb]; [reflexivity|].
    reflexivity. }
  split; [apply split_first_no_separator|].
  split; [apply split_first_prefix | apply split_first_whole].
Qed.

Lemma caption_texts_witness :
  SimpleProcessor.make_text (Sample.container 4000 3000 4000 3000) = "SONY".
Proof.
  destruct (caption_texts (Sample.container 4000 3000 4000 3000))
    as (_ & _ & _ & _ & _ & _ & H).
  apply H. reflexivity.
Defined.

Lemma int_half (a : Z) : Py.int (inject_Z a / 2)%Q = Z.quot a 2.
Proof.
  unfold Py.int. simpl. rewrite Z.mul_1_r. reflexivity.
Qed.

Section SimpleCaption.

Variable text_to_image : string -> Font -> Font -> bool -> Color -> Image.
Variable merge_images : list Image -> Z -> Z -> Image.
Variable resize_image_with_height : Image -> Z -> Image.
Variable get_alternative_font : Config.t -> Font.
Variable get_alternative_bold_font : Config.t -> Font.

(** X16.  On a working image of non-zero height the caption band is always
    composed (the white ground is made in the size of the padded caption).
    The horizontal padding is half of the free width truncated toward zero,
    on both sides, so the band is as wide as the working image when the
    caption width has its parity, and one pixel narrower (caption not wider
    than the image) or wider (caption wider) when it has not. *)
Theorem caption_band_width (config : Config.t) (container : ImageContainer) :
  get_height container <> 0 ->
  let W := get_width container in
  exists band ratio,
    let caption :=
      SimpleProcessor.caption text_to_image merge_images resize_image_with_height
        get_alternative_font get_alternative_bold_font config container
        ratio (5 # 10) in
    SimpleProcessor.caption_band text_to_image merge_images resize_image_with_height
      get_alternative_font get_alternative_bold_font config container = Ok band
    /\ (ratio = (16 # 100)%Q \/ ratio = (1 # 10)%Q)
    /\ width band = W - Z.rem (W - width caption) 2
    /\ Z.abs (width band - W) <= 1
    /\ (Z.even (W - width caption) = true -> width band = W)
    /\ (width caption <= W -> W - 1 <= width band <= W).
Proof.
  intros HH W. unfold SimpleProcessor.caption_band.
  rewrite get_ratio_ok by exact HH. cbn [bind].
  set (r := (inject_Z (get_width container) / inject_Z (get_height container))%Q).
  set (ratio := (if Py.ge r 1 then 16 # 100 else 1 # 10)%Q).
  replace (if Py.ge r 1 then 5 # 10 else 5 # 10)%Q with (5 # 10)%Q
    by (destruct (Py.ge r 1); reflexivity).
  set (caption :=
         SimpleProcessor.caption text_to_image merge_images resize_image_with_height
           get_alternative_font get_alternative_bold_font config container
           ratio (5 # 10)).
  unfold SimpleProcessor.band_of, alpha_composite.
  cbn [expand2 width height]. rewrite !Z.eqb_refl. cbn [andb].
  eexists. exists ratio. cbv zeta. fold caption.
  split; [reflexivity|].
  split; [unfold ratio; destruct (Py.ge r 1); [left | right]; reflexivity|].
  cbn [width]. rewrite int_half. fold W.
  pose proof (Z.quot_rem' (W - width caption) 2) as Hqr.
  pose proof (Z.rem_bound_abs (W - width caption) 2 ltac:(lia)) as Hb.
  assert (Hrem : forall a, 0 <= a -> 0 <= Z.rem a 2)
    by (intros a Ha; apply Z.rem_nonneg; lia).
  pose proof (Hrem (W - width caption)) as Hpos.
  split; [lia|]. split; [lia|]. split; [|lia].
  intros Heven. apply Z.even_spec in Heven. destruct Heven as [k Hk].
  assert (Hr0 : Z.rem (W - width caption) 2 = 0).
  { rewrite Hk, Z.mul_comm. apply Z.rem_mul. lia. }
  lia.
Qed.

End SimpleCaption.

(** A caption of 922 x 240 on a 4000 x 3000 photo: paddings of 1539 pixels
    and a band of 4000 x 480 pixels. *)
Lemma caption_band_width_witness :
  exists band,
    SimpleProcessor.caption_band Sample.text_to_image SampleUtils.merge_images
      SampleUtils.resize_image_with_height SampleUtils.get_alternative_font
      SampleUtils.get_alternative_bold_font (Sample.config true true None 5 0)
      (Sample.container 4000 3000 4000 3000) = Ok band
    /\ Z.abs (width band - 4000) <= 1.
Proof.
  destruct (caption_band_width Sample.text_to_image SampleUtils.merge_images
              SampleUtils.resize_image_with_height SampleUtils.get_alternative_font
              SampleUtils.get_alternative_bold_font (Sample.config true true None 5 0)
              (Sample.container 4000 3000 4000 3000))
    as (band & ratio & Hb & _ & _ & Habs & _).
  - vm_compute. discriminate.
  - exists band. split; [exact Hb | exact Habs].
Defined.

(** ** The texts stay on the canvas *)

(** X17.  On a working image of at most [2 ^ 50] columns, once the two texts
    have been scaled, a text bitmap that was resized (its height as rendered
    is positive) is between 1 and [int (0.75 W)] columns wide and lies within
    the canvas from left to right: its left edge is at a column that is not
    negative and its right edge is not beyond the canvas width. *)
Theorem texts_inside_canvas
    (text_to_image : string -> Font -> Font -> bool -> Color -> Image)
    (config : Config.t) (container : ImageContainer) (m p : Image) :
  0 <= get_height container ->
  0 <= get_width container ->
  get_width container <= 2 ^ 50 ->
  (forall content font bold_font is_bold fill,
     0 <= width (text_to_image content font bold_font is_bold fill)
     /\ 0 <= height (text_to_image content font bold_font is_bold fill)) ->
  BackgroundBlurWithParamsProcessor.text_images text_to_image config container
  = Ok (m, p) ->
  let model_image :=
    BackgroundBlurWithParamsProcessor.rendered_model text_to_image config container in
  let param_image :=
    BackgroundBlurWithParamsProcessor.rendered_param text_to_image config container in
  let final_width := BackgroundBlurWithParamsProcessor.final_width container in
  let budget := BackgroundBlurWithParamsProcessor.max_text_width container in
  let at_ := BackgroundBlurWithParamsProcessor.text_placement container m p in
  (0 < height model_image ->
   1 <= width m <= budget
   /\ 0 <= BackgroundBlurWithParamsProcessor.model_x at_
   /\ BackgroundBlurWithParamsProcessor.model_x at_ + width m <= final_width)
  /\ (0 < height param_image ->
      1 <= width p <= budget
      /\ 0 <= BackgroundBlurWithParamsProcessor.param_x at_
      /\ BackgroundBlurWithParamsProcessor.param_x at_ + width p <= final_width).
Proof.
  intros HH HW HW50 Hraster Ht model_image param_image final_width budget at_.
  destruct (text_images_returns text_to_image config container m p HH HW Hraster Ht)
    as (s & Hm & Hp & Hs0 & _ & Hsw & Hmw & _ & Hpw & _ & _ & Hbudget0).
  fold model_image param_image in Hm, Hp, Hsw, Hmw, Hpw.
  assert (Hbudget : budget = get_width container * 75 / 100)
    by (apply max_text_width_floor; exact HW).
  rewrite <- Hbudget in Hsw, Hbudget0.
  assert (Hbudget50 : budget <= 2 ^ 50).
  { rewrite Hbudget. apply Z.le_trans with (get_width container); [|exact HW50].
    apply Z.div_le_upper_bound; lia. }
  assert (Hle : budget <= final_width).
  { rewrite Hbudget. unfold final_width.
    rewrite (proj1 (params_final_size container HW HH)).
    apply Z.div_le_mono; lia. }
  set (widest := Z.max (width model_image) (width param_image)) in *.
  cbn [at_ BackgroundBlurWithParamsProcessor.text_placement
       BackgroundBlurWithParamsProcessor.model_x
       BackgroundBlurWithParamsProcessor.param_x].
  unfold at_. cbn [BackgroundBlurWithParamsProcessor.text_placement
                   BackgroundBlurWithParamsProcessor.model_x
                   BackgroundBlurWithParamsProcessor.param_x].
  fold final_width.
  split; intros Hpos.
  - assert (Hwm : 1 <= width m <= budget).
    { apply (scaled_width_le model_image m s widest budget); try assumption.
      unfold widest. lia. }
    pose proof (floor_half_centred (final_width - width m)) as Hc.
    split; [exact Hwm|]. split; [apply Z.div_pos; lia | lia].
  - assert (Hwp : 1 <= width p <= budget).
    { apply (scaled_width_le param_image p s widest budget); try assumption.
      unfold widest. lia. }
    pose proof (floor_half_centred (final_width - width p)) as Hc.
    split; [exact Hwp|]. split; [apply Z.div_pos; lia | lia].
Qed.

(** The 4000 x 3000 photo: the model name, 480 columns wide, starts at
    column 2120 of 4720. *)
Lemma texts_inside_canvas_witness :
  let container := Sample.container 4000 3000 4000 3000 in
  let m := Image_resize (Raster 400 100) 480 120 in
  let p := Image_resize (Raster 1080 90) 1296 108 in
  BackgroundBlurWithParamsProcessor.text_images Sample.text_to_image
    (Sample.config true true None 5 0) container
  = Ok (m, p)
  /\ 0 <= BackgroundBlurWithParamsProcessor.model_x
            (BackgroundBlurWithParamsProcessor.text_placement container m p)
  /\ BackgroundBlurWithParamsProcessor.model_x
       (BackgroundBlurWithParamsProcessor.text_placement container m p) + width m
     <= BackgroundBlurWithParamsProcessor.final_width container.
Proof.
  intros container m p. split; [vm_compute; reflexivity|].
  destruct (texts_inside_canvas Sample.text_to_image (Sample.config true true None 5 0)
              container m p) as [Hm _].
  - vm_compute. discriminate.
  - vm_compute. discriminate.
  - vm_compute. discriminate.
  - exact sample_raster_nonneg.
  - vm_compute. reflexivity.
  - destruct Hm as (_ & Hx & Hr); [vm_compute; reflexivity|].
    split; [exact Hx | exact Hr].
Defined.
